(** * django-onmydesk: a shallow embedding of the report pipeline

  The development follows the layout of the package:
  - [Py]      : the few pieces of Python semantics the code leans on
                (truthiness, exceptions, [str.split], [str.join], ...);
  - [Utils]   : [onmydesk/utils.py]  ([my_import], [str_to_date]);
  - [Reports] : [onmydesk/core/reports.py]  ([BaseReport]);
  - [Models]  : [onmydesk/models.py]  ([output_file_handler], [Report]).

  Strings are byte strings ([string]); the code only ever inspects
  ASCII characters (space, ['.'], [';'], ['D'], digits and signs). *)

From stdpp Require Import gmap strings list functions.
From Stdlib Require Import ZArith Ascii String Lia.

Local Open Scope string_scope.
Local Open Scope list_scope.

(** ** Python values and control flow *)
Module Py.

(** The exception classes that occur.  Everything but
    [BaseException_only] derives from [Exception]; the latter stands for
    [KeyboardInterrupt], [SystemExit] and the like, which an
    [except Exception] clause lets through. *)
Inductive exn : Type :=
| ReportNotSavedException
| ValueError (msg : string)
| TypeError
| ImportError (name : string)
| AttributeError (name : string)
| DatabaseError
| OverflowError
| Exception_other (tag : string)
| BaseException_only (tag : string).

Definition is_Exception (e : exn) : bool :=
  match e with
  | BaseException_only _ => false
  | _ => true
  end.

(** Outcome of evaluating an expression or a call. *)
Inductive result (A : Type) : Type :=
| Return (a : A)
| Raise (e : exn).
Arguments Return {A} a.
Arguments Raise {A} e.

Definition rbind {A B} (r : result A) (k : A -> result B) : result B :=
  match r with
  | Return a => k a
  | Raise e => Raise e
  end.

(** [not s] for a str: only the empty string is falsy. *)
Definition str_truthy (s : string) : bool :=
  match s with
  | EmptyString => false
  | String _ _ => true
  end.

(** Truthiness of a value that is [None] or a str. *)
Definition opt_str_truthy (o : option string) : bool :=
  match o with
  | None => false
  | Some s => str_truthy s
  end.

(** Truthiness of a value that is [None] or an int. *)
Definition opt_int_truthy (o : option Z) : bool :=
  match o with
  | None => false
  | Some n => negb (n =? 0)%Z
  end.

(** [s.split(sep)] for a one-character separator: never empty, and
    [''.split(sep) == ['']]. *)
Fixpoint str_split (sep : ascii) (s : string) : list string :=
  match s with
  | EmptyString => [EmptyString]
  | String a s' =>
      if Ascii.eqb a sep then EmptyString :: str_split sep s'
      else match str_split sep s' with
           | [] => [String a EmptyString]
           | w :: ws => String a w :: ws
           end
  end.

(** [sep.join(l)]. *)
Fixpoint str_join (sep : string) (l : list string) : string :=
  match l with
  | [] => EmptyString
  | [x] => x
  | x :: xs => x ++ sep ++ str_join sep xs
  end.

(** [c in s]. *)
Fixpoint str_contains (c : ascii) (s : string) : bool :=
  match s with
  | EmptyString => false
  | String a s' => Ascii.eqb a c || str_contains c s'
  end.

(** [s.lstrip(c)], [s.rstrip(c)], [s.strip(c)] for a one-character set. *)
Fixpoint str_lstrip (c : ascii) (s : string) : string :=
  match s with
  | EmptyString => EmptyString
  | String a s' => if Ascii.eqb a c then str_lstrip c s' else s
  end.

Fixpoint str_rstrip (c : ascii) (s : string) : string :=
  match s with
  | EmptyString => EmptyString
  | String a s' =>
      match str_rstrip c s' with
      | EmptyString => if Ascii.eqb a c then EmptyString else String a EmptyString
      | r => String a r
      end
  end.

Definition str_strip (c : ascii) (s : string) : string :=
  str_rstrip c (str_lstrip c s).

(** [s.replace(c, '')] for a one-character [c]. *)
Fixpoint str_remove (c : ascii) (s : string) : string :=
  match s with
  | EmptyString => EmptyString
  | String a s' => if Ascii.eqb a c then str_remove c s' else String a (str_remove c s')
  end.

(** [s.upper()] on ASCII letters; other bytes are kept.  (No character
    outside ASCII upper-cases to ['D'], a digit or a sign, so this does
    not change what the pattern of [str_to_date] accepts.) *)
Definition chr_upper (a : ascii) : ascii :=
  let n := nat_of_ascii a in
  if (97 <=? n)%nat && (n <=? 122)%nat then ascii_of_nat (n - 32) else a.

Fixpoint str_upper (s : string) : string :=
  match s with
  | EmptyString => EmptyString
  | String a s' => String (chr_upper a) (str_upper s')
  end.

(** Slices [s[:n]] and [s[n:]]. *)
Fixpoint str_take (n : nat) (s : string) : string :=
  match n, s with
  | S n', String a s' => String a (str_take n' s')
  | _, _ => EmptyString
  end.

Fixpoint str_drop (n : nat) (s : string) : string :=
  match n, s with
  | S n', String _ s' => str_drop n' s'
  | _, _ => s
  end.

Definition is_digit (a : ascii) : bool :=
  let n := nat_of_ascii a in (48 <=? n)%nat && (n <=? 57)%nat.

Definition newline : ascii := "010"%char.

End Py.
Export Py.

(** ** onmydesk/utils.py *)
Module Utils.

Section MyImport.

(** What [getattr] finds in a module is left open; a module is its
    attribute table.  [import_module name] is Python's
    [__import__(name, fromlist=[...])], which with a non-empty [fromlist]
    returns the named module itself or raises. *)
Context {Obj : Type}.
Variable import_module : string -> result (string -> option Obj).

(** [*packs, class_name = l]. *)
Definition unpack_last (l : list string) : result (list string * string) :=
  match rev l with
  | [] => Raise (ValueError "not enough values to unpack")
  | last :: front => Return (rev front, last)
  end.

Definition getattr (pymod : string -> option Obj) (name : string) : result Obj :=
  match pymod name with
  | Some o => Return o
  | None => Raise (AttributeError name)
  end.

Definition my_import (class_name : string) : result Obj :=
  rbind (unpack_last (str_split "." class_name)) (fun '(packs, class_name) =>
  rbind (import_module (str_join "." packs)) (fun pymod =>
  getattr pymod class_name)).

End MyImport.

Section StrToDate.

(** Dates come from [datetime]; the two operations used are
    [reference_date - timedelta(days=n)] and
    [reference_date + timedelta(days=n)], either of which may raise
    [OverflowError]. *)
Context {Date : Type}.
Variable date_minus_days : Date -> Z -> result Date.
Variable date_plus_days : Date -> Z -> result Date.

(** The end-of-pattern anchor of [re]: without [re.MULTILINE], [$] matches
    at the end of the string and also just before a newline that is the
    last character. *)
Definition at_dollar (s : string) : bool :=
  match s with
  | EmptyString => true
  | String a EmptyString => Ascii.eqb a newline
  | _ => false
  end.

(** [[0-9]*$] *)
Fixpoint digits_dollar (s : string) : bool :=
  at_dollar s ||
  match s with
  | EmptyString => false
  | String a s' => is_digit a && digits_dollar s'
  end.

(** First alternative, [^D[\-+][0-9]+$]. *)
Definition match_D_sign_digits (s : string) : bool :=
  match s with
  | String d (String sign (String n rest)) =>
      Ascii.eqb d "D" && (Ascii.eqb sign "-" || Ascii.eqb sign "+")
      && is_digit n && digits_dollar rest
  | _ => false
  end.

(** Second alternative, [^D$]. *)
Definition match_D (s : string) : bool :=
  match s with
  | String d rest => Ascii.eqb d "D" && at_dollar rest
  | _ => false
  end.

(** [re.match('^D[\-+][0-9]+$|^D$', s)] as a truth value. *)
Definition re_match (s : string) : bool :=
  match_D_sign_digits s || match_D s.

Definition digit_value (a : ascii) : Z := Z.of_nat (nat_of_ascii a - 48).

Fixpoint int_digits (acc : Z) (s : string) : result Z :=
  match s with
  | EmptyString => Return acc
  | String a s' =>
      if is_digit a then int_digits (10 * acc + digit_value a) s'
      else if at_dollar s then Return acc
      else Raise (ValueError "invalid literal for int() with base 10")
  end.

(** [int(s)] on the strings that reach it behind the pattern: decimal
    digits, possibly followed by one newline, which [int] strips as
    white space.  The empty literal is rejected. *)
Definition int (s : string) : result Z :=
  match s with
  | String a _ =>
      if is_digit a then int_digits 0 s
      else Raise (ValueError "invalid literal for int() with base 10")
  | EmptyString => Raise (ValueError "invalid literal for int() with base 10")
  end.

(** The function ends without a [return] when none of its three tests
    holds; Python then returns [None]. *)
Definition str_to_date (value : string) (reference_date : Date) : result (option Date) :=
  let n_value := str_upper (str_remove " " (str_strip " " value)) in
  if negb (re_match n_value) then Raise (ValueError ("Wrong value " ++ value))
  else if String.eqb n_value "D" then Return (Some reference_date)
  else if String.eqb (str_take 2 n_value) "D-" then
    rbind (int (str_drop 2 n_value)) (fun days =>
    rbind (date_minus_days reference_date days) (fun d => Return (Some d)))
  else if String.eqb (str_take 2 n_value) "D+" then
    rbind (int (str_drop 2 n_value)) (fun days =>
    rbind (date_plus_days reference_date days) (fun d => Return (Some d)))
  else Return None.





End StrToDate.

End Utils.

(** ** onmydesk/core/reports.py *)
Module Reports.

(** References to heap objects (outputs, list objects). *)
Abbreviation ref := nat.

(** The interface of [onmydesk.core.outputs]: an output is a context
    manager with [header], [out] and [footer] methods and a [filepath]
    attribute.  A method is given by its effect on the state of the
    object it is called on. *)
Class Output (OutSt Row Content : Type) := {
  out_enter : OutSt -> OutSt;
  out_header : option Content -> OutSt -> OutSt;
  out_out : Row -> OutSt -> OutSt;
  out_footer : option Content -> OutSt -> OutSt;
  out_filepath : OutSt -> string;
  out_exit : OutSt -> OutSt
}.

(** The interface of [onmydesk.core.datasets]: a context manager whose
    [iterate(params=...)] yields a finite sequence of rows. *)
Class Dataset (Ds Row Params : Type) := {
  ds_iterate : Ds -> option Params -> list Row
}.

Section BaseReport.

Context {OutSt Row Content Ds Params : Type}.
Context `{!Output OutSt Row Content} `{!Dataset Ds Row Params}.

(** Calls made on the collaborators, in the order they happen. *)
Inductive Call : Type :=
| DsEnter
| DsIterate (params : option Params)
| DsNext (row : Row)
| DsExit
| OutEnter (o : ref)
| OutHeader (o : ref) (content : option Content)
| OutOut (o : ref) (row : Row)
| OutFooter (o : ref) (content : option Content)
| OutExit (o : ref).

(** The heap: output objects and list objects by reference, and the log
    of calls. *)
Record World : Type := {
  outs : ref -> OutSt;
  lists : gmap ref (list string);
  calls : list Call
}.

(** An instance: its [__dict__].  An attribute missing there is looked up
    on the class. *)
Record Instance : Type := {
  params : option Params;
  output_filepaths : option ref
}.

(** A report class: what the class body of [BaseReport] or of a subclass
    defines.  [cls_output_filepaths] is the list object created once by
    the class statement [output_filepaths = []]. *)
Record ReportClass : Type := {
  header : option Content;
  footer : option Content;
  cls_output_filepaths : ref;
  dataset : Instance -> Ds;
  outputs : Instance -> list ref;
  row_cleaner : Row -> Row
}.

Definition getattr_output_filepaths (cls : ReportClass) (self : Instance) : ref :=
  match output_filepaths self with
  | Some l => l
  | None => cls_output_filepaths cls
  end.

(** The list that [self.output_filepaths] evaluates to. *)
Definition read_output_filepaths (cls : ReportClass) (self : Instance) (w : World)
  : option (list string) :=
  lists w !! getattr_output_filepaths cls self.

(** A list display or comprehension creates a new list object. *)
Definition new_list (v : list string) (w : World) : ref * World :=
  let l := fresh (dom (lists w)) in
  (l, {| outs := outs w; lists := <[l := v]> (lists w); calls := calls w |}).

Definition log (c : Call) (w : World) : World :=
  {| outs := outs w; lists := lists w; calls := calls w ++ [c] |}.

(** A method call on the output that [o] refers to. *)
Definition call_output (m : OutSt -> OutSt) (c : Call) (o : ref) (w : World) : World :=
  {| outs := <[o := m (outs w o)]> (outs w); lists := lists w; calls := calls w ++ [c] |}.

(** [for x in l: body]. *)
Definition for_each {A : Type} (body : A -> World -> World) (l : list A) (w : World) : World :=
  fold_left (fun w x => body x w) l w.

(** [BaseReport.__init__]. *)
Definition init (p : option Params) (w : World) : Instance * World :=
  let (l, w) := new_list [] w in
  ({| params := p; output_filepaths := Some l |}, w).

(** [BaseReport.row_cleaner], which subclasses may override. *)
Definition BaseReport_row_cleaner (row : Row) : Row := row.

(** [BaseReport.process].  [ExitStack] leaves the outputs in the reverse
    of the order in which they were entered. *)
Definition process (cls : ReportClass) (self : Instance) (w : World) : Instance * World :=
  let ds := dataset cls self in
  let w := log DsEnter w in
  let outputs := outputs cls self in
  let w := for_each (fun o => call_output out_enter (OutEnter o) o) outputs w in
  let w := for_each (fun o => call_output (out_header (header cls)) (OutHeader o (header cls)) o)
             outputs w in
  let w := log (DsIterate (params self)) w in
  let w := for_each (fun row w =>
               let w := log (DsNext row) w in
               let row := row_cleaner cls row in
               for_each (fun o => call_output (out_out row) (OutOut o row) o) outputs w)
             (ds_iterate ds (params self)) w in
  let w := for_each (fun o => call_output (out_footer (footer cls)) (OutFooter o (footer cls)) o)
             outputs w in
  let (l, w) := new_list (map (fun o => out_filepath (outs w o)) outputs) w in
  let self := {| params := params self; output_filepaths := Some l |} in
  let w := for_each (fun o => call_output out_exit (OutExit o) o) (rev outputs) w in
  let w := log DsExit w in
  (self, w).

(** The effect of a logged call on the object [o]. *)
Definition apply_call (o : ref) (st : OutSt) (c : Call) : OutSt :=
  match c with
  | OutEnter o' => if decide (o' = o) then out_enter st else st
  | OutHeader o' h => if decide (o' = o) then out_header h st else st
  | OutOut o' row => if decide (o' = o) then out_out row st else st
  | OutFooter o' f => if decide (o' = o) then out_footer f st else st
  | OutExit o' => if decide (o' = o) then out_exit st else st
  | _ => st
  end.

(** The state an object reaches through a history of calls. *)
Definition replay (cs : list Call) (o : ref) (st : OutSt) : OutSt :=
  fold_left (apply_call o) cs st.

(** The calls of [process] up to and including the footers. *)
Definition body_calls (cls : ReportClass) (self : Instance) : list Call :=
  [DsEnter]
  ++ map OutEnter (outputs cls self)
  ++ map (fun o => OutHeader o (header cls)) (outputs cls self)
  ++ [DsIterate (params self)]
  ++ flat_map (fun row => DsNext row :: map (fun o => OutOut o (row_cleaner cls row)) (outputs cls self))
       (ds_iterate (dataset cls self) (params self))
  ++ map (fun o => OutFooter o (footer cls)) (outputs cls self).

Definition exit_calls (cls : ReportClass) (self : Instance) : list Call :=
  map OutExit (rev (outputs cls self)) ++ [DsExit].

(** What one output sees of a run, when it is listed once. *)
Definition output_protocol (cls : ReportClass) (self : Instance) (o : ref) : list Call :=
  [OutEnter o; OutHeader o (header cls)]
  ++ map (fun row => OutOut o (row_cleaner cls row))
       (ds_iterate (dataset cls self) (params self))
  ++ [OutFooter o (footer cls); OutExit o].

Definition call_target (c : Call) : option ref :=
  match c with
  | OutEnter o | OutHeader o _ | OutOut o _ | OutFooter o _ | OutExit o => Some o
  | _ => None
  end.

Definition calls_on (o : ref) (cs : list Call) : list Call :=
  filter (fun c => call_target c = Some o) cs.

(** The same with an output listed [n] times. *)
Definition output_protocol_n (cls : ReportClass) (self : Instance) (o : ref) (n : nat)
  : list Call :=
  repeat (OutEnter o) n
  ++ repeat (OutHeader o (header cls)) n
  ++ flat_map (fun row => repeat (OutOut o (row_cleaner cls row)) n)
       (ds_iterate (dataset cls self) (params self))
  ++ repeat (OutFooter o (footer cls)) n
  ++ repeat (OutExit o) n.

(** [w] is [w0] after the calls [cs]: the log has grown by [cs], every
    output is in the state its own calls lead to, and no list object was
    touched. *)
Definition after (w0 : World) (cs : list Call) (w : World) : Prop :=
  calls w = calls w0 ++ cs
  /\ lists w = lists w0
  /\ forall o, outs w o = replay cs o (outs w0 o).

End BaseReport.

End Reports.

(** ** onmydesk/models.py *)
Module Models.

Definition STATUS_PENDING : string := "pending".
Definition STATUS_PROCESSING : string := "processing".
Definition STATUS_PROCESSED : string := "processed".
Definition STATUS_ERROR : string := "error".

Section Report.

(** [Decimal] values and the report parameters are opaque to this module;
    [dec_sub] is [Decimal.__sub__] under [getcontext().prec = 5]. *)
Context {Decimal Params : Type}.
Variable dec_sub : Decimal -> Decimal -> Decimal.

(** A report object as this module uses it: [report.process()] either
    raises, or completes and leaves the given list in
    [report.output_filepaths]. *)
Record ReportObject : Type := {
  report_process : result (list string)
}.

(** An object found by [my_import], given by its answers to the two calls
    made here: [obj(params=report_params)] and [obj(filepath)].  A file
    handler returns a str, as its contract in the docstring of
    [output_file_handler] requires. *)
Record PyObj : Type := {
  call_params : option Params -> result ReportObject;
  call_filepath : string -> result string
}.

(** What surrounds the module: the Django setting read at import time,
    Python's import system, and the successive readings of [timer()]
    (already wrapped in [Decimal]). *)
Record Env : Type := {
  ONMYDESK_FILE_HANDLER : option string;
  import_module : string -> result (string -> option PyObj);
  timer : nat -> Decimal
}.

(** [output_file_handler]; [not function_handler] holds for [None] and
    for the empty string. *)
Definition output_file_handler (env : Env) (filepath : string) : result string :=
  match ONMYDESK_FILE_HANDLER env with
  | None => Return filepath
  | Some function_handler =>
      if negb (str_truthy function_handler) then Return filepath
      else rbind (Utils.my_import (import_module env) function_handler) (fun handler =>
           call_filepath handler filepath)
  end.

(** The fields of the model that [process] and [results_as_list] touch:
    the in-memory instance, and a row of its table. *)
Record Report : Type := {
  id : option Z;
  status : string;
  process_time : option Decimal;
  report : string;
  results : option string
}.

Record Row : Type := {
  row_status : string;
  row_process_time : option Decimal;
  row_report : string;
  row_results : option string
}.


Inductive Event : Type :=
| SetStatus (s : string)
| SetResults (r : string)
| Saved (pk : Z) (s : string)
| Import (name : string)
| New (report_params : option Params)
| Run.

(** Program state: the instance [self], the table, the number of
    [timer()] calls so far, and the log of events. *)
Record State : Type := {
  self : Report;
  db : gmap Z Row;
  ticks : nat;
  trace : list Event
}.

Definition M (A : Type) : Type := State -> result A * State.

Definition ret {A} (a : A) : M A := fun s => (Return a, s).
Definition raise {A} (e : exn) : M A := fun s => (Raise e, s).
Definition bind {A B} (m : M A) (k : A -> M B) : M B :=
  fun s => match m s with
           | (Return a, s') => k a s'
           | (Raise e, s') => (Raise e, s')
           end.
Definition lift {A} (r : result A) : M A := fun s => (r, s).

(** [try: body  except Exception: handler]. *)
Definition try_except {A} (body : M A) (handler : M A) : M A :=
  fun s => match body s with
           | (Raise e, s') => if is_Exception e then handler s' else (Raise e, s')
           | r => r
           end.

Notation "'let*' x ':=' m 'in' k" := (bind m (fun x => k))
  (at level 10, x pattern, m at level 100, k at level 200).
Notation "m ';;' k" := (bind m (fun _ => k))
  (at level 100, k at level 200, right associativity).

Definition get_self : M Report := fun s => (Return (self s), s).

Definition emit (e : Event) : M unit :=
  fun s => (Return tt, {| self := self s; db := db s; ticks := ticks s; trace := trace s ++ [e] |}).

Definition update_self (f : Report -> Report) : M unit :=
  fun s => (Return tt, {| self := f (self s); db := db s; ticks := ticks s; trace := trace s |}).

Definition with_status (v : string) (r : Report) : Report :=
  {| id := id r; status := v; process_time := process_time r;
     report := report r; results := results r |}.

Definition with_process_time (v : Decimal) (r : Report) : Report :=
  {| id := id r; status := status r; process_time := Some v;
     report := report r; results := results r |}.

Definition with_results (v : string) (r : Report) : Report :=
  {| id := id r; status := status r; process_time := process_time r;
     report := report r; results := Some v |}.

(** [self.status = v]. *)
Definition set_status (v : string) : M unit :=
  emit (SetStatus v) ;; update_self (with_status v).

(** [self.results = v]. *)
Definition set_results (v : string) : M unit :=
  emit (SetResults v) ;; update_self (with_results v).

Definition row_with_status (v : string) (r : Row) : Row :=
  {| row_status := v; row_process_time := row_process_time r;
     row_report := row_report r; row_results := row_results r |}.

(** [self.save(update_fields=['status'])]: an UPDATE of the one column of
    the row whose key is [self.id].  Django raises [ValueError] when there
    is no key and [DatabaseError] when the UPDATE matches no row. *)
Definition save_status : M unit :=
  fun s =>
    match id (self s) with
    | None => (Raise (ValueError "Cannot force an update in save() with no primary key."), s)
    | Some pk =>
        match db s !! pk with
        | None => (Raise DatabaseError, s)
        | Some row =>
            (Return tt,
             {| self := self s;
                db := <[pk := row_with_status (status (self s)) row]> (db s);
                ticks := ticks s;
                trace := trace s ++ [Saved pk (status (self s))] |})
        end
    end.

(** [Decimal(timer())]. *)
Definition read_timer (env : Env) : M Decimal :=
  fun s => (Return (timer env (ticks s)),
            {| self := self s; db := db s; ticks := S (ticks s); trace := trace s |}).

(** [for filepath in fps: results.append(output_file_handler(filepath))]. *)
Fixpoint handle_outputs (env : Env) (fps : list string) (results : list string)
  : M (list string) :=
  match fps with
  | [] => ret results
  | filepath :: fps' =>
      let* r := lift (output_file_handler env filepath) in
      handle_outputs env fps' (results ++ [r])
  end.

(** The same loop as a function of the paths alone: it touches neither
    the instance nor the table. *)
Fixpoint handle_all (env : Env) (fps : list string) : result (list string) :=
  match fps with
  | [] => Return []
  | filepath :: fps' =>
      rbind (output_file_handler env filepath) (fun r =>
      rbind (handle_all env fps') (fun rs => Return (r :: rs)))
  end.

(** [Report.process]. *)
Definition process (env : Env) (report_params : option Params) : M unit :=
  let* this := get_self in
  if negb (opt_int_truthy (id this)) then raise ReportNotSavedException
  else
    set_status STATUS_PROCESSING ;;
    save_status ;;
    emit (Import (report this)) ;;
    let* report_class := lift (Utils.my_import (import_module env) (report this)) in
    emit (New report_params) ;;
    let* report := lift (call_params report_class report_params) in
    try_except
      (let* start := read_timer env in
       emit Run ;;
       let* output_filepaths := lift (report_process report) in
       let* stop := read_timer env in
       update_self (with_process_time (dec_sub stop start)) ;;
       let* results := handle_outputs env output_filepaths [] in
       set_results (str_join ";" results) ;;
       set_status STATUS_PROCESSED ;;
       save_status)
      (set_status STATUS_ERROR ;;
       save_status).

(** The state in which [process] ends when it got past the first [save]:
    [st] is the final status, [this] the instance as left by the body. *)
Definition final_state (s : State) (pk : Z) (row : Row) (st : string) (this : Report)
  (t : nat) (evs : list Event) : State :=
  {| self := with_status st this;
     db := <[pk := row_with_status st row]> (db s);
     ticks := t;
     trace := trace s ++ [SetStatus STATUS_PROCESSING; Saved pk STATUS_PROCESSING] ++ evs |}.

(** What the [try] statement makes of an exception raised in its body. *)
Definition caught (s : State) (pk : Z) (row : Row) (e : exn) (this : Report) (t : nat)
  (evs : list Event) : result unit * State :=
  if is_Exception e
  then (Return tt,
        final_state s pk row STATUS_ERROR this t
          (evs ++ [SetStatus STATUS_ERROR; Saved pk STATUS_ERROR]))
  else (Raise e, final_state s pk row STATUS_PROCESSING this t evs).






(** [Report.results_as_list]; [not self.results] holds for [None] and for
    the empty string. *)
Definition results_as_list (this : Report) : list string :=
  match results this with
  | None => []
  | Some r => if negb (str_truthy r) then [] else str_split ";" r
  end.

End Report.

End Models.

(** ** A small installation, used to exercise the statements *)
Module Scenario.
Import Models.

(** A report class whose run ends as [run] says, and a file handler that
    moves a file under a bucket. *)
Definition SalesReport (run : result (list string)) : @PyObj unit :=
  {| call_params := fun _ => Return {| report_process := run |};
     call_filepath := fun _ => Raise TypeError |}.

Definition to_bucket : @PyObj unit :=
  {| call_params := fun _ => Raise TypeError;
     call_filepath := fun filepath => Return ("s3://bucket" ++ filepath)%string |}.

Definition modules (run : result (list string)) (name : string)
  : result (string -> option (@PyObj unit)) :=
  if String.eqb name "shop.reports" then
    Return (fun attr =>
              if String.eqb attr "SalesReport" then Some (SalesReport run)
              else if String.eqb attr "to_bucket" then Some to_bucket
              else None)
  else Raise (ImportError name).

Definition env (handler : option string) (run : result (list string)) : @Env Z unit :=
  {| ONMYDESK_FILE_HANDLER := handler;
     import_module := modules run;
     timer := fun n => (100 * Z.of_nat n)%Z |}.

Definition job (pk : option Z) : @Report Z :=
  {| id := pk; status := STATUS_PENDING; process_time := None;
     report := "shop.reports.SalesReport"; results := None |}.

Definition job_row : @Row Z :=
  {| row_status := STATUS_PENDING; row_process_time := None;
     row_report := "shop.reports.SalesReport"; row_results := None |}.

Definition start (pk : option Z) : @State Z unit :=
  {| self := job pk; db := {[ 7%Z := job_row ]}; ticks := 0; trace := [] |}.

Definition two_files : list string := ["/tmp/sales.tsv"; "/tmp/sales.csv"].

(** Three installations: no handler and a report that runs; no handler
    and a report that fails; a handler and a report that runs. *)
Definition plain : @Env Z unit := env None (Return two_files).
Definition failing : @Env Z unit := env None (Raise (Exception_other "no such table")).
Definition handled : @Env Z unit := env (Some "shop.reports.to_bucket") (Return two_files).

Definition run (e : @Env Z unit) (pk : option Z) : result unit * @State Z unit :=
  process Z.sub e None (start pk).


(** An output that keeps the lines it is given, and a dataset that is the
    list of its rows. *)
Record FileState : Type := {
  file_path : string;
  file_open : bool;
  file_lines : list string
}.

Definition write_line (line : list string) (st : FileState) : FileState :=
  {| file_path := file_path st; file_open := file_open st;
     file_lines := file_lines st ++ [str_join "," line] |}.

Definition write_optional (content : option (list string)) (st : FileState) : FileState :=
  match content with
  | Some line => write_line line st
  | None => st
  end.

Definition set_open (b : bool) (st : FileState) : FileState :=
  {| file_path := file_path st; file_open := b; file_lines := file_lines st |}.

#[export] Instance file_output : Reports.Output FileState (list string) (list string) :=
  {| Reports.out_enter := set_open true;
     Reports.out_header := write_optional;
     Reports.out_out := write_line;
     Reports.out_footer := write_optional;
     Reports.out_filepath := file_path;
     Reports.out_exit := set_open false |}.

#[export] Instance list_dataset : Reports.Dataset (list (list string)) (list string) unit :=
  {| Reports.ds_iterate := fun rows _ => rows |}.

(** A sales report with two outputs; its row cleaner upper-cases. *)
Definition sales_rows : list (list string) := [["tea"; "3"]; ["milk"; "5"]].

Definition sales_report : @Reports.ReportClass (list string) (list string) (list (list string)) unit :=
  {| Reports.header := Some ["item"; "sold"];
     Reports.footer := None;
     Reports.cls_output_filepaths := 0;
     Reports.dataset := fun _ => sales_rows;
     Reports.outputs := fun _ => [0; 1];
     Reports.row_cleaner := map str_upper |}.

Definition heap : @Reports.World FileState (list string) (list string) unit :=
  {| Reports.outs := fun o =>
       {| file_path := if Nat.eqb o 0 then "/tmp/sales.tsv" else "/tmp/sales.csv";
          file_open := false; file_lines := [] |};
     Reports.lists := {[ 0 := [] ]};
     Reports.calls := [] |}.

End Scenario.

(** ** SQLReport *)
Module SQL.
Import Reports.

Section SQLReport.

Context {OutSt Row Content Ds Params Query QueryParams DbAlias : Type}.
Context `{!Output OutSt Row Content} `{!Dataset Ds Row Params}.

(** [datasets.SQLDataset(query, query_params, db_alias)]. *)
Variable SQLDataset : Query -> QueryParams -> DbAlias -> Ds.

(** The one output made when the class statement
    [outputs = (outputs.TSVOutput(),)] runs, and the list object of
    [BaseReport.output_filepaths], which [SQLReport] inherits. *)
Variable TSVOutput : ref.
Variable class_list : ref.

(** [SQLReport], or a subclass that sets [query], [query_params] and
    [db_alias] and nothing else: [header], [footer] and [row_cleaner] are
    those of [BaseReport], [outputs] is the class attribute and [dataset]
    builds a dataset from the three attributes. *)
Definition SQLReport (query : Query) (query_params : QueryParams) (db_alias : DbAlias)
  : @ReportClass Row Content Ds Params :=
  {| header := None;
     footer := None;
     cls_output_filepaths := class_list;
     dataset := fun _ => SQLDataset query query_params db_alias;
     outputs := fun _ => [TSVOutput];
     row_cleaner := BaseReport_row_cleaner |}.

(** What a run with the given rows does to the state of the one output,
    up to its footer: entered, no header, the rows as they come, no
    footer. *)
Definition written (rows : list Row) (st : OutSt) : OutSt :=
  out_footer None
    (fold_left (fun st row => out_out row st) rows (out_header None (out_enter st))).

End SQLReport.

End SQL.

(** ** Counting calls *)
Module Calls.
Import Reports.

Section Calls.

Context {Row Content Params : Type}.

Definition is_iterate (c : @Call Row Content Params) : bool :=
  match c with DsIterate _ => true | _ => false end.

Definition is_next (c : @Call Row Content Params) : bool :=
  match c with DsNext _ => true | _ => false end.

Definition is_out (c : @Call Row Content Params) : bool :=
  match c with OutOut _ _ => true | _ => false end.

Definition count (p : @Call Row Content Params -> bool) (cs : list (@Call Row Content Params))
  : nat :=
  List.length (List.filter p cs).

End Calls.

End Calls.

(** ** A BaseReport class run by the job record *)
Module Pipeline.
Import Reports Models.

Section Pipeline.

Context {OutSt Row Content Ds Params : Type}.
Context `{!Output OutSt Row Content} `{!Dataset Ds Row Params}.

(** What models.py sees of a [BaseReport] subclass living on the heap
    [w]: calling the class runs [__init__]; [report.process()] is
    [BaseReport.process]; [report.output_filepaths] is read afterwards. *)
Definition report_object (cls : @ReportClass Row Content Ds Params) (this : @Instance Params)
  (w : @World OutSt Row Content Params) : ReportObject :=
  {| report_process :=
       let (this', w') := Reports.process cls this w in
       match read_output_filepaths cls this' w' with
       | Some l => Return l
       | None => Raise (AttributeError "output_filepaths")
       end |}.

Definition report_class (cls : @ReportClass Row Content Ds Params)
  (w : @World OutSt Row Content Params) : @PyObj Params :=
  {| call_params := fun report_params =>
       let (this, w') := init report_params w in Return (report_object cls this w');
     call_filepath := fun _ => Raise TypeError |}.

End Pipeline.

(** The report run that [Report.process] starts: import, construction
    and [report.process()]. *)
Definition report_run {Decimal Params : Type} (env : @Env Decimal Params) (name : string)
  (report_params : option Params) : result (list string) :=
  rbind (Utils.my_import (import_module env) name) (fun report_class =>
  rbind (call_params report_class report_params) (fun report =>
  report_process report)).

End Pipeline.

(** ** More installations *)
Module Installations.
Import Models Scenario.


Definition no_outputs : @Env Z unit := env None (Return []).

Definition bad_handler : @Env Z unit := env (Some "shop.reports.missing") (Return two_files).



End Installations.

(** * Properties *)

(** ** Strings *)
Section StringFacts.

Variable sep : ascii.

Lemma str_split_not_nil (s : string) : str_split sep s <> [].
Proof.
  induction s as [|a s IH]; simpl; [discriminate|].
  destruct (Ascii.eqb a sep); [discriminate|].
  destruct (str_split sep s); discriminate.
Qed.

Lemma str_split_without_sep (s : string) :
  str_contains sep s = false -> str_split sep s = [s].
Proof.
  induction s as [|a s IH]; simpl; [reflexivity|].
  intros H. apply orb_false_iff in H as [Ha Hs].
  rewrite Ha, (IH Hs). reflexivity.
Qed.

Lemma str_split_cons_sep (x rest : string) :
  str_contains sep x = false ->
  str_split sep (x ++ String sep rest) = x :: str_split sep rest.
Proof.
  induction x as [|a x IH]; simpl.
  - intros _. rewrite Ascii.eqb_refl. reflexivity.
  - intros H. apply orb_false_iff in H as [Ha Hx].
    rewrite Ha, (IH Hx). reflexivity.
Qed.

Lemma str_split_join (l : list string) :
  l <> [] ->
  Forall (fun p => str_contains sep p = false) l ->
  str_split sep (str_join (String sep EmptyString) l) = l.
Proof.
  induction l as [|x l IH]; [congruence|].
  intros _ Hall. inversion Hall as [|? ? Hx Hl]; subst.
  destruct l as [|y l].
  - simpl. apply str_split_without_sep, Hx.
  - change (str_join (String sep "") (x :: y :: l))
      with (x ++ String sep (str_join (String sep "") (y :: l)))%string.
    rewrite str_split_cons_sep by exact Hx.
    rewrite IH; [reflexivity|discriminate|exact Hl].
Qed.

Lemma str_join_empty_inv (l : list string) :
  str_join (String sep EmptyString) l = EmptyString -> l = [] \/ l = [EmptyString].
Proof.
  destruct l as [|x [|y l]]; intros H; [left; reflexivity| |].
  - simpl in H. subst x. right; reflexivity.
  - exfalso. change (x ++ String sep (str_join (String sep "") (y :: l)) = "")%string in H.
    destruct x; discriminate H.
Qed.

End StringFacts.

(** ** The job record *)
Section ReportFacts.

Import Models.
Context {Decimal Params : Type}.
Variable dec_sub : Decimal -> Decimal -> Decimal.

Implicit Types (env : @Env Decimal Params) (s : @State Decimal Params).
Implicit Types (params : option Params) (this : @Report Decimal).

Lemma handle_outputs_eq env fps acc s :
  handle_outputs env fps acc s
  = (rbind (handle_all env fps) (fun rs => Return (acc ++ rs)), s).
Proof.
  revert acc. induction fps as [|fp fps IH]; intros acc; simpl.
  - unfold ret. rewrite app_nil_r. reflexivity.
  - unfold bind, lift. destruct (output_file_handler env fp) as [r|e]; simpl; [|reflexivity].
    rewrite IH. destruct (handle_all env fps) as [rs|e]; simpl; [|reflexivity].
    rewrite <- app_assoc. reflexivity.
Qed.

Lemma handle_all_Forall2 env fps rs :
  handle_all env fps = Return rs <->
  Forall2 (fun fp r => output_file_handler env fp = Return r) fps rs.
Proof.
  revert rs. induction fps as [|fp fps IH]; intros rs; simpl.
  - split; [intros [= <-]; constructor | intros H; inversion H; reflexivity].
  - split.
    + destruct (output_file_handler env fp) as [r|e] eqn:Hfp; simpl; [|discriminate].
      destruct (handle_all env fps) as [rs'|e] eqn:Hrest; simpl; [|discriminate].
      intros [= <-]. constructor; [exact Hfp | apply IH; reflexivity].
    + intros H. inversion H as [|? r ? rs' Hfp Hrest]; subst.
      rewrite Hfp. simpl. apply IH in Hrest. rewrite Hrest. reflexivity.
Qed.

Lemma truthy_id this :
  opt_int_truthy (id this) = true -> exists pk, id this = Some pk /\ pk <> 0%Z.
Proof.
  destruct (id this) as [pk|]; simpl; [|discriminate].
  intros H. exists pk. split; [reflexivity|].
  intros ->. discriminate.
Qed.

Ltac run_process :=
  unfold process, try_except, set_status, set_results, save_status, read_timer,
    update_self, emit, get_self, bind, lift, raise, ret; simpl.

(** An unsaved record: nothing happens but the exception. *)
Lemma process_unsaved env params s :
  opt_int_truthy (id (self s)) = false ->
  process dec_sub env params s = (Raise ReportNotSavedException, s).
Proof. intros H. run_process. rewrite H. reflexivity. Qed.

(** A key without a row: the first [save] fails, outside the [try]. *)
Lemma process_no_row env params s pk :
  id (self s) = Some pk -> pk <> 0%Z -> db s !! pk = None ->
  process dec_sub env params s
  = (Raise DatabaseError,
     {| self := with_status STATUS_PROCESSING (self s); db := db s; ticks := ticks s;
        trace := trace s ++ [SetStatus STATUS_PROCESSING] |}).
Proof.
  intros Hpk Hnz Hrow. apply Z.eqb_neq in Hnz. run_process.
  rewrite Hpk. simpl. rewrite Hnz. simpl. rewrite ?Hpk, Hrow. reflexivity.
Qed.

Lemma process_saved env params s pk row :
  id (self s) = Some pk -> pk <> 0%Z -> db s !! pk = Some row ->
  process dec_sub env params s =
  let name := report (self s) in
  match Utils.my_import (import_module env) name with
  | Raise e => (Raise e, final_state s pk row STATUS_PROCESSING (self s) (ticks s) [Import name])
  | Return report_class =>
    match call_params report_class params with
    | Raise e =>
        (Raise e, final_state s pk row STATUS_PROCESSING (self s) (ticks s)
                    [Import name; New params])
    | Return report =>
      let evs := [Import name; New params; Run] in
      match report_process report with
      | Raise e => caught s pk row e (self s) (S (ticks s)) evs
      | Return fps =>
        let timed :=
          with_process_time (dec_sub (timer env (S (ticks s))) (timer env (ticks s))) (self s) in
        match handle_all env fps with
        | Raise e => caught s pk row e timed (S (S (ticks s))) evs
        | Return rs =>
            (Return tt,
             final_state s pk row STATUS_PROCESSED
               (with_results (str_join ";" rs) timed) (S (S (ticks s)))
               (evs ++ [SetResults (str_join ";" rs); SetStatus STATUS_PROCESSED;
                        Saved pk STATUS_PROCESSED]))
        end
      end
    end
  end.
Proof.
  intros Hpk Hnz Hrow. apply Z.eqb_neq in Hnz. run_process.
  rewrite Hpk. simpl. rewrite Hnz. simpl. rewrite ?Hpk, Hrow. simpl.
  unfold caught, final_state.
  destruct (Utils.my_import _ _) as [cls|e]; simpl;
    [|rewrite <- !app_assoc; reflexivity].
  destruct (call_params cls params) as [rep|e]; simpl;
    [|rewrite <- !app_assoc; reflexivity].
  destruct (report_process rep) as [fps|e]; simpl.
  - rewrite handle_outputs_eq. simpl.
    destruct (handle_all env fps) as [rs|e]; simpl.
    + rewrite Hpk, lookup_insert_eq. simpl. rewrite insert_insert_eq.
      rewrite <- !app_assoc. reflexivity.
    + destruct (is_Exception e); simpl.
      * rewrite Hpk, lookup_insert_eq. simpl. rewrite insert_insert_eq.
        rewrite <- !app_assoc. reflexivity.
      * rewrite <- !app_assoc. reflexivity.
  - destruct (is_Exception e); simpl.
    + rewrite Hpk, lookup_insert_eq. simpl. rewrite insert_insert_eq.
      rewrite <- !app_assoc. reflexivity.
    + rewrite <- !app_assoc. reflexivity.
Qed.

(** Case analysis of a run on a record that has a key. *)
Ltac process_cases Hid Hrun :=
  let pk := fresh "pk" in
  let Hpk := fresh "Hpk" in
  let Hnz := fresh "Hnz" in
  let row := fresh "row" in
  let Hrow := fresh "Hrow" in
  destruct (truthy_id _ Hid) as (pk & Hpk & Hnz);
  lazymatch type of Hrun with
  | process _ _ _ ?s = _ =>
      destruct (db s !! pk) as [row|] eqn:Hrow;
      [ rewrite (process_saved _ _ _ _ _ Hpk Hnz Hrow) in Hrun
      | rewrite (process_no_row _ _ _ _ Hpk Hnz Hrow) in Hrun ]
  end;
  cbv zeta in Hrun; unfold caught in Hrun;
  repeat case_match; simplify_eq; simpl in *.

(** C2: when [process] returns on a record that has a key, the status of
    the record is 'processed' or 'error', and so neither 'pending' nor
    'processing'. *)
Theorem process_returns_processed_or_error env params s s' :
  opt_int_truthy (id (self s)) = true ->
  process dec_sub env params s = (Return tt, s') ->
  (status (self s') = STATUS_PROCESSED \/ status (self s') = STATUS_ERROR)
  /\ status (self s') <> STATUS_PENDING
  /\ status (self s') <> STATUS_PROCESSING.
Proof.
  intros Hid Hrun. process_cases Hid Hrun;
    (split; [auto | split; discriminate]).
Qed.


(** C4: on a record without a key, [process] raises
    [ReportNotSavedException] and changes nothing: no status is assigned
    and nothing is saved, so a record that was 'pending' still is. *)
Theorem process_unsaved_raises env params s :
  opt_int_truthy (id (self s)) = false ->
  process dec_sub env params s = (Raise ReportNotSavedException, s)
  /\ (status (self s) = STATUS_PENDING ->
      status (self (snd (process dec_sub env params s))) = STATUS_PENDING).
Proof.
  intros Hid. rewrite (process_unsaved _ _ _ Hid). simpl. auto.
Qed.


(** C6: [output_file_handler] gives back the path itself when no handler
    is configured and otherwise what the configured handler returns; a run
    that ends 'processed' leaves in [results] the ';'-join of the handled
    output paths of the report, in the order of the outputs. *)
Theorem process_results_join_handled env params s s' :
  opt_int_truthy (id (self s)) = true ->
  process dec_sub env params s = (Return tt, s') ->
  status (self s') = STATUS_PROCESSED ->
  (opt_str_truthy (ONMYDESK_FILE_HANDLER env) = false ->
   forall fp, output_file_handler env fp = Return fp)
  /\ (forall name, ONMYDESK_FILE_HANDLER env = Some name -> name <> EmptyString ->
      forall fp, output_file_handler env fp
                 = rbind (Utils.my_import (import_module env) name)
                     (fun handler => call_filepath handler fp))
  /\ exists report_class report fps rs,
       Utils.my_import (import_module env) (Models.report (self s)) = Return report_class
       /\ call_params report_class params = Return report
       /\ report_process report = Return fps
       /\ Forall2 (fun fp r => output_file_handler env fp = Return r) fps rs
       /\ results (self s') = Some (str_join ";" rs).
Proof.
  intros Hid Hrun Hst. split; [|split].
  - unfold output_file_handler. destruct (ONMYDESK_FILE_HANDLER env) as [name|]; simpl.
    + intros ->. reflexivity.
    + reflexivity.
  - intros name Hcfg Hname fp. unfold output_file_handler. rewrite Hcfg.
    destruct name; [contradiction|reflexivity].
  - process_cases Hid Hrun; try discriminate Hst.
    eexists _, _, _, _. repeat (split; [first [reflexivity | eassumption]|]).
    split; [|reflexivity]. apply handle_all_Forall2. assumption.
Qed.


End ReportFacts.

(** ** Runs of the scenario *)
Section ScenarioRuns.

Import Models Scenario.

Lemma process_returns_processed_or_error_witness :
  opt_int_truthy (id (self (start (Some 7%Z)))) = true
  /\ run failing (Some 7%Z) = (Return tt, snd (run failing (Some 7%Z)))
  /\ ((status (self (snd (run failing (Some 7%Z)))) = STATUS_PROCESSED
       \/ status (self (snd (run failing (Some 7%Z)))) = STATUS_ERROR)
      /\ status (self (snd (run failing (Some 7%Z)))) <> STATUS_PENDING
      /\ status (self (snd (run failing (Some 7%Z)))) <> STATUS_PROCESSING).
Proof.
  assert (Hid : opt_int_truthy (id (self (start (Some 7%Z)))) = true) by reflexivity.
  assert (Hrun : run failing (Some 7%Z) = (Return tt, snd (run failing (Some 7%Z))))
    by (vm_compute; reflexivity).
  split; [exact Hid|]. split; [exact Hrun|].
  exact (process_returns_processed_or_error Z.sub failing None _ _ Hid Hrun).
Defined.


Lemma process_unsaved_raises_witness :
  opt_int_truthy (id (self (start None))) = false
  /\ run plain None = (Raise ReportNotSavedException, start None)
  /\ (status (self (start None)) = STATUS_PENDING ->
      status (self (snd (run plain None))) = STATUS_PENDING).
Proof.
  assert (Hid : opt_int_truthy (id (self (start None))) = false) by reflexivity.
  split; [exact Hid|].
  exact (process_unsaved_raises Z.sub plain None (start None) Hid).
Defined.



Lemma process_results_join_handled_witness :
  opt_int_truthy (id (self (start (Some 7%Z)))) = true
  /\ run handled (Some 7%Z) = (Return tt, snd (run handled (Some 7%Z)))
  /\ status (self (snd (run handled (Some 7%Z)))) = STATUS_PROCESSED
  /\ results (self (snd (run handled (Some 7%Z))))
     = Some "s3://bucket/tmp/sales.tsv;s3://bucket/tmp/sales.csv"
  /\ exists report_class report fps rs,
       Utils.my_import (import_module handled) (Models.report (self (start (Some 7%Z))))
       = Return report_class
       /\ call_params report_class None = Return report
       /\ report_process report = Return fps
       /\ Forall2 (fun fp r => output_file_handler handled fp = Return r) fps rs
       /\ results (self (snd (run handled (Some 7%Z)))) = Some (str_join ";" rs).
Proof.
  assert (Hid : opt_int_truthy (id (self (start (Some 7%Z)))) = true) by reflexivity.
  assert (Hrun : run handled (Some 7%Z) = (Return tt, snd (run handled (Some 7%Z))))
    by (vm_compute; reflexivity).
  assert (Hst : status (self (snd (run handled (Some 7%Z)))) = STATUS_PROCESSED)
    by (vm_compute; reflexivity).
  split; [exact Hid|]. split; [exact Hrun|]. split; [exact Hst|].
  split; [vm_compute; reflexivity|].
  exact (proj2 (proj2 (process_results_join_handled Z.sub handled None _ _ Hid Hrun Hst))).
Defined.



End ScenarioRuns.

(** ** The report run *)
Section BaseReportFacts.

Import Reports.
Context {OutSt Row Content Ds Params : Type}.
Context `{!Output OutSt Row Content} `{!Dataset Ds Row Params}.

Implicit Types (w : @World OutSt Row Content Params) (cs : list (@Call Row Content Params)).
Implicit Types (cls : @ReportClass Row Content Ds Params) (self : @Instance Params).
Implicit Types (o : nat).

Lemma replay_app cs1 cs2 o (st : OutSt) :
  replay (cs1 ++ cs2) o st = replay cs2 o (replay cs1 o st).
Proof. unfold replay. apply fold_left_app. Qed.

Lemma after_refl w : after w [] w.
Proof. repeat split. rewrite app_nil_r. reflexivity. Qed.

Lemma after_log w0 cs w c :
  call_target c = None -> after w0 cs w -> after w0 (cs ++ [c]) (log c w).
Proof.
  intros Hc (Hcalls & Hlists & Houts). repeat split; simpl.
  - rewrite Hcalls, app_assoc. reflexivity.
  - exact Hlists.
  - intros o. rewrite replay_app, <- Houts. destruct c; simpl in *; congruence.
Qed.

Lemma after_call w0 cs w (m : OutSt -> OutSt) c o :
  (forall o' st, apply_call o' st c = if decide (o = o') then m st else st) ->
  after w0 cs w -> after w0 (cs ++ [c]) (call_output m c o w).
Proof.
  intros Hc (Hcalls & Hlists & Houts). repeat split; simpl.
  - rewrite Hcalls, app_assoc. reflexivity.
  - exact Hlists.
  - intros o'. rewrite replay_app, <- Houts. simpl. rewrite Hc.
    destruct (decide (o = o')) as [->|Hne].
    + rewrite fn_lookup_insert. reflexivity.
    + rewrite fn_lookup_insert_ne by exact Hne. reflexivity.
Qed.

Lemma after_for_each_outputs w0 (m : OutSt -> OutSt) (c : nat -> Call) (l : list nat) :
  (forall o o' st, apply_call o' st (c o) = if decide (o = o') then m st else st) ->
  forall cs w, after w0 cs w ->
  after w0 (cs ++ map c l) (for_each (fun o => call_output m (c o) o) l w).
Proof.
  intros Hc. induction l as [|o l IH]; intros cs w Hw; simpl.
  - rewrite app_nil_r. exact Hw.
  - change (cs ++ c o :: map c l) with (cs ++ [c o] ++ map c l).
    rewrite app_assoc. apply IH. apply after_call; [apply Hc | exact Hw].
Qed.

Lemma after_rows w0 (clean : Row -> Row) (l : list nat) (rows : list Row) :
  forall cs w, after w0 cs w ->
  after w0 (cs ++ flat_map (fun row => DsNext row :: map (fun o => OutOut o (clean row)) l) rows)
    (for_each (fun row w =>
                 for_each (fun o => call_output (out_out (clean row)) (OutOut o (clean row)) o) l
                   (log (DsNext row) w)) rows w).
Proof.
  induction rows as [|row rows IH]; intros cs w Hw; simpl.
  - rewrite app_nil_r. exact Hw.
  - rewrite app_comm_cons, app_assoc. apply IH.
    change (DsNext row :: map (fun o => OutOut o (clean row)) l)
      with ([DsNext (Content:=Content) (Params:=Params) row]
            ++ map (fun o => OutOut o (clean row)) l).
    rewrite app_assoc.
    apply (after_for_each_outputs w0 (out_out (clean row)) (fun o => OutOut o (clean row))).
    + intros o o' st. reflexivity.
    + apply after_log; [reflexivity | exact Hw].
Qed.

(** The run up to the footers. *)
Lemma after_body cls self w :
  after w (body_calls cls self)
    (for_each (fun o => call_output (out_footer (footer cls)) (OutFooter o (footer cls)) o)
       (outputs cls self)
       (for_each (fun row w =>
                    for_each (fun o => call_output (out_out (row_cleaner cls row))
                                         (OutOut o (row_cleaner cls row)) o)
                      (outputs cls self) (log (DsNext row) w))
          (ds_iterate (dataset cls self) (params self))
          (log (DsIterate (params self))
             (for_each (fun o => call_output (out_header (header cls))
                                   (OutHeader o (header cls)) o)
                (outputs cls self)
                (for_each (fun o => call_output out_enter (OutEnter o) o)
                   (outputs cls self) (log DsEnter w)))))).
Proof.
  unfold body_calls. rewrite !app_assoc.
  apply (after_for_each_outputs w (out_footer (footer cls)) (fun o => OutFooter o (footer cls)));
    [reflexivity|].
  apply after_rows.
  apply after_log; [reflexivity|].
  apply (after_for_each_outputs w (out_header (header cls)) (fun o => OutHeader o (header cls)));
    [reflexivity|].
  apply (after_for_each_outputs w out_enter OutEnter); [reflexivity|].
  apply (after_log w [] w DsEnter); [reflexivity | apply after_refl].
Qed.

Lemma process_eq cls self w :
  let l := fresh (dom (lists w)) in
  let fps := map (fun o => out_filepath (replay (body_calls cls self) o (outs w o)))
               (outputs cls self) in
  fst (process cls self w) = {| params := params self; output_filepaths := Some l |}
  /\ calls (snd (process cls self w)) = calls w ++ body_calls cls self ++ exit_calls cls self
  /\ lists (snd (process cls self w)) = <[l := fps]> (lists w)
  /\ forall o, outs (snd (process cls self w)) o
               = replay (body_calls cls self ++ exit_calls cls self) o (outs w o).
Proof.
  intros l fps. unfold process.
  pose proof (after_body cls self w) as Hbody.
  set (wb := for_each _ (outputs cls self) (for_each _ (ds_iterate _ _) _)) in *.
  destruct Hbody as (Hcalls & Hlists & Houts).
  unfold new_list. cbv beta iota zeta. cbn [fst snd].
  set (wn := {| outs := outs wb; lists := _; calls := calls wb |}).
  assert (Hexit : after wn (exit_calls cls self)
            (log DsExit (for_each (fun o => call_output out_exit (OutExit o) o)
                           (rev (outputs cls self)) wn))).
  { unfold exit_calls. apply after_log; [reflexivity|].
    apply (after_for_each_outputs wn out_exit OutExit _ (fun _ _ _ => eq_refl) [] wn).
    apply after_refl. }
  destruct Hexit as (Hcalls' & Hlists' & Houts').
  split; [|split; [|split]].
  - unfold l. rewrite Hlists. reflexivity.
  - rewrite Hcalls'. unfold wn. cbn [calls]. rewrite Hcalls, app_assoc. reflexivity.
  - rewrite Hlists'. unfold wn, l, fps. cbn [lists]. rewrite Hlists. f_equal.
    apply map_ext. intros o. rewrite Houts. reflexivity.
  - intros o. rewrite Houts'. unfold wn. cbn [outs]. rewrite Houts, replay_app. reflexivity.
Qed.

Lemma calls_on_app o cs1 cs2 :
  calls_on o (cs1 ++ cs2) = calls_on o cs1 ++ calls_on o cs2.
Proof. unfold calls_on. apply list.filter_app. Qed.

Lemma calls_on_untargeted o (c : @Call Row Content Params) :
  call_target c = None -> calls_on o [c] = [].
Proof.
  intros Hc. unfold calls_on. rewrite filter_cons_False; [reflexivity|].
  rewrite Hc. discriminate.
Qed.

Lemma calls_on_map o (c : nat -> @Call Row Content Params) (l : list nat) :
  (forall o', call_target (c o') = Some o') ->
  calls_on o (map c l) = repeat (c o) (count_occ Nat.eq_dec l o).
Proof.
  intros Hc. unfold calls_on. induction l as [|a l IH]; simpl; [reflexivity|].
  destruct (Nat.eq_dec a o) as [->|Hne].
  - rewrite filter_cons_True by apply Hc. simpl. rewrite IH. reflexivity.
  - rewrite filter_cons_False; [exact IH|]. rewrite Hc. congruence.
Qed.

Lemma calls_on_rows o (clean : Row -> Row) (l : list nat) (rows : list Row) :
  calls_on o (flat_map (fun row => DsNext (Content:=Content) (Params:=Params) row
                                   :: map (fun o' => OutOut o' (clean row)) l) rows)
  = flat_map (fun row => repeat (OutOut o (clean row)) (count_occ Nat.eq_dec l o)) rows.
Proof.
  induction rows as [|row rows IH]; simpl; [reflexivity|].
  change (DsNext row :: map (fun o' => OutOut o' (clean row)) l
          ++ flat_map (fun row => DsNext row :: map (fun o' => OutOut o' (clean row)) l) rows)
    with ([DsNext (Content:=Content) (Params:=Params) row]
          ++ map (fun o' => OutOut o' (clean row)) l
          ++ flat_map (fun row => DsNext row :: map (fun o' => OutOut o' (clean row)) l) rows).
  rewrite !calls_on_app, IH, calls_on_untargeted by reflexivity.
  rewrite (calls_on_map o (fun o' => OutOut o' (clean row))) by reflexivity.
  reflexivity.
Qed.

Lemma calls_on_process o cls self :
  calls_on o (body_calls cls self ++ exit_calls cls self)
  = output_protocol_n cls self o (count_occ Nat.eq_dec (outputs cls self) o).
Proof.
  unfold body_calls, exit_calls, output_protocol_n.
  rewrite !calls_on_app, calls_on_rows.
  rewrite !calls_on_untargeted by reflexivity.
  rewrite (calls_on_map o OutEnter) by reflexivity.
  rewrite (calls_on_map o (fun o' => OutHeader o' (header cls))) by reflexivity.
  rewrite (calls_on_map o (fun o' => OutFooter o' (footer cls))) by reflexivity.
  rewrite (calls_on_map o OutExit) by reflexivity.
  rewrite count_occ_rev. simpl. rewrite app_nil_r, <- !app_assoc. reflexivity.
Qed.

Lemma output_protocol_once cls self o :
  output_protocol_n cls self o 1 = output_protocol cls self o.
Proof.
  assert (Hrows : forall rows : list Row,
             flat_map (fun row => repeat (OutOut (Content:=Content) (Params:=Params) o
                                            (row_cleaner cls row)) 1) rows
             = map (fun row => OutOut o (row_cleaner cls row)) rows).
  { induction rows as [|row rows IH]; simpl in *; [reflexivity | rewrite IH; reflexivity]. }
  unfold output_protocol_n, output_protocol. rewrite Hrows. reflexivity.
Qed.

(** C1: [process] enters the dataset and the outputs, sends the header to
    every output, iterates once over the dataset and, row by row in the
    order of the dataset, sends the cleaned row to every output in the
    order of the outputs list; then it sends the footer to every output
    and leaves the context managers.  So each output gets its header
    before any row, the cleaned rows in order, and its footer after all
    of them, and is left in the state these calls lead to.  Afterwards
    [output_filepaths] is the list of the [filepath]s the outputs had
    after their footers, in the order of the outputs list. *)
Theorem process_single_pass cls self w :
  calls (snd (process cls self w)) = calls w ++ body_calls cls self ++ exit_calls cls self
  /\ (forall o,
        calls_on o (body_calls cls self ++ exit_calls cls self)
        = output_protocol_n cls self o (count_occ Nat.eq_dec (outputs cls self) o))
  /\ (forall o, output_protocol_n cls self o 1 = output_protocol cls self o)
  /\ (forall o,
        outs (snd (process cls self w)) o
        = replay (body_calls cls self ++ exit_calls cls self) o (outs w o))
  /\ read_output_filepaths cls (fst (process cls self w)) (snd (process cls self w))
     = Some (map (fun o => out_filepath (replay (body_calls cls self) o (outs w o)))
               (outputs cls self))
  /\ params (fst (process cls self w)) = params self.
Proof.
  destruct (process_eq cls self w) as (Hself & Hcalls & Hlists & Houts).
  split; [exact Hcalls|].
  split; [intros o; apply calls_on_process|].
  split; [intros o; apply output_protocol_once|].
  split; [exact Houts|].
  unfold read_output_filepaths, getattr_output_filepaths.
  rewrite Hself, Hlists. simpl. rewrite lookup_insert_eq. split; reflexivity.
Qed.

(** C10: [__init__] gives every instance a list of its own, new and
    empty, which is not the list of the class attribute; and when one
    instance is processed, the paths it records show on that instance
    only: another instance still has its empty list, and so has the
    class. *)
Theorem init_gives_own_output_filepaths cls (pa pb : option Params) w (shared : list string) :
  lists w !! cls_output_filepaths cls = Some shared ->
  let a := fst (init pa w) in
  let w1 := snd (init pa w) in
  let b := fst (init pb w1) in
  let w2 := snd (init pb w1) in
  let a' := fst (process cls a w2) in
  let w3 := snd (process cls a w2) in
  read_output_filepaths cls a w1 = Some []
  /\ read_output_filepaths cls b w2 = Some []
  /\ getattr_output_filepaths cls a <> cls_output_filepaths cls
  /\ getattr_output_filepaths cls b <> cls_output_filepaths cls
  /\ getattr_output_filepaths cls a <> getattr_output_filepaths cls b
  /\ read_output_filepaths cls a' w3
     = Some (map (fun o => out_filepath (replay (body_calls cls a) o (outs w2 o)))
               (outputs cls a))
  /\ read_output_filepaths cls b w3 = Some []
  /\ lists w3 !! cls_output_filepaths cls = Some shared.
Proof.
  intros Hcls a w1 b w2 a' w3.
  set (la := fresh (dom (lists w))).
  set (lb := fresh (dom (lists w1))).
  set (lp := fresh (dom (lists w2))).
  assert (Hw1 : lists w1 = <[la := []]> (lists w)) by reflexivity.
  assert (Hw2 : lists w2 = <[lb := []]> (lists w1)) by reflexivity.
  assert (Ha : la ∉ dom (lists w)) by apply is_fresh.
  assert (Hb : lb ∉ dom (lists w1)) by apply is_fresh.
  assert (Hp : lp ∉ dom (lists w2)) by apply is_fresh.
  assert (Hc : cls_output_filepaths cls ∈ dom (lists w))
    by (apply elem_of_dom; eexists; exact Hcls).
  rewrite Hw1, dom_insert_L in Hb.
  rewrite Hw2, Hw1, !dom_insert_L in Hp.
  destruct (process_eq cls a w2) as (Hself & _ & Hlists & _).
  fold a' w3 lp in Hself, Hlists.
  assert (Hga : getattr_output_filepaths cls a = la) by reflexivity.
  assert (Hgb : getattr_output_filepaths cls b = lb) by reflexivity.
  assert (Hga' : getattr_output_filepaths cls a' = lp)
    by (unfold getattr_output_filepaths; rewrite Hself; reflexivity).
  assert (Hac : la <> cls_output_filepaths cls) by (intros E; apply Ha; rewrite E; exact Hc).
  assert (Hbc : lb <> cls_output_filepaths cls).
  { intros E. apply Hb. rewrite E. apply elem_of_union_r, Hc. }
  assert (Hab : la <> lb).
  { intros E. apply Hb. rewrite <- E. apply elem_of_union_l, elem_of_singleton. reflexivity. }
  assert (Hpb : lp <> lb).
  { intros E. apply Hp. rewrite E. apply elem_of_union_l, elem_of_singleton. reflexivity. }
  assert (Hpa : lp <> la).
  { intros E. apply Hp. rewrite E.
    apply elem_of_union_r, elem_of_union_l, elem_of_singleton. reflexivity. }
  assert (Hpc : lp <> cls_output_filepaths cls).
  { intros E. apply Hp. rewrite E. apply elem_of_union_r, elem_of_union_r, Hc. }
  unfold read_output_filepaths. rewrite Hga, Hgb, Hga', Hlists, Hw2, Hw1.
  split; [apply lookup_insert_eq|].
  split; [apply lookup_insert_eq|].
  split; [exact Hac|]. split; [exact Hbc|]. split; [exact Hab|].
  split; [apply lookup_insert_eq|].
  split.
  - rewrite lookup_insert_ne by exact Hpb. apply lookup_insert_eq.
  - rewrite !lookup_insert_ne by auto. exact Hcls.
Qed.

End BaseReportFacts.

(** ** A run of the sales report *)
Section SalesReportRun.

Import Reports Scenario.

Example sales_report_calls :
  calls (snd (process sales_report (fst (init None heap)) (snd (init None heap))))
  = [DsEnter; OutEnter 0; OutEnter 1;
     OutHeader 0 (Some ["item"; "sold"]); OutHeader 1 (Some ["item"; "sold"]);
     DsIterate None;
     DsNext ["tea"; "3"]; OutOut 0 ["TEA"; "3"]; OutOut 1 ["TEA"; "3"];
     DsNext ["milk"; "5"]; OutOut 0 ["MILK"; "5"]; OutOut 1 ["MILK"; "5"];
     OutFooter 0 None; OutFooter 1 None; OutExit 1; OutExit 0; DsExit].
Proof. vm_compute. reflexivity. Qed.

Example sales_report_file :
  file_lines (outs (snd (process sales_report (fst (init None heap)) (snd (init None heap)))) 1)
  = ["item,sold"; "TEA,3"; "MILK,5"].
Proof. vm_compute. reflexivity. Qed.

Lemma init_gives_own_output_filepaths_witness :
  lists heap !! cls_output_filepaths sales_report = Some []
  /\ read_output_filepaths sales_report
       (fst (process sales_report (fst (init None heap)) (snd (init None (snd (init None heap))))))
       (snd (process sales_report (fst (init None heap)) (snd (init None (snd (init None heap))))))
     = Some ["/tmp/sales.tsv"; "/tmp/sales.csv"]
  /\ read_output_filepaths sales_report
       (fst (init None (snd (init None heap))))
       (snd (process sales_report (fst (init None heap)) (snd (init None (snd (init None heap))))))
     = Some []
  /\ lists (snd (process sales_report (fst (init None heap)) (snd (init None (snd (init None heap))))))
       !! cls_output_filepaths sales_report
     = Some [].
Proof.
  assert (Hcls : lists heap !! cls_output_filepaths sales_report = Some [])
    by (vm_compute; reflexivity).
  split; [exact Hcls|].
  destruct (init_gives_own_output_filepaths sales_report None None heap [] Hcls)
    as (_ & _ & _ & _ & _ & Hrecorded & Hother & Hshared).
  split; [|split; [exact Hother | exact Hshared]].
  rewrite Hrecorded. vm_compute. reflexivity.
Defined.

End SalesReportRun.

(** ** Reading the results back *)
Section ResultsAsList.

Import Models.
Context {Decimal : Type}.
Implicit Types (this : @Report Decimal).

Lemma results_as_list_empty this :
  opt_str_truthy (results this) = false -> results_as_list this = [].
Proof.
  unfold results_as_list. destruct (results this) as [r|]; simpl; [|reflexivity].
  intros ->. reflexivity.
Qed.

Lemma results_as_list_split this (r : string) :
  results this = Some r -> r <> EmptyString -> results_as_list this = str_split ";" r.
Proof.
  intros Hr Hne. unfold results_as_list. rewrite Hr.
  destruct r; [contradiction|reflexivity].
Qed.

(** C8 (as amended): [results_as_list] is empty when [results] is [None]
    or the empty string and is [results] split on ';' otherwise; hence a
    non-empty list of paths without ';', other than the list whose only
    element is the empty string, is read back as it was joined. *)
Theorem results_as_list_roundtrip this (paths : list string) :
  paths <> [] ->
  paths <> [EmptyString] ->
  Forall (fun p => str_contains ";" p = false) paths ->
  results_as_list this
  = match results this with
    | None | Some EmptyString => []
    | Some r => str_split ";" r
    end
  /\ results_as_list (with_results (str_join ";" paths) this) = paths.
Proof.
  intros Hne Hne' Hsemi. split.
  - unfold results_as_list. destruct (results this) as [[|c r]|]; reflexivity.
  - rewrite (results_as_list_split _ (str_join ";" paths)).
    + apply str_split_join; assumption.
    + reflexivity.
    + intros Hempty. apply str_join_empty_inv in Hempty as [->| ->]; contradiction.
Qed.

End ResultsAsList.

Section ResultsAsListRuns.

Import Models Scenario.

Lemma results_as_list_roundtrip_witness :
  two_files <> []
  /\ two_files <> [EmptyString]
  /\ Forall (fun p => str_contains ";" p = false) two_files
  /\ results_as_list (with_results (str_join ";" two_files) (job (Some 7%Z))) = two_files.
Proof.
  assert (H1 : two_files <> []) by discriminate.
  assert (H2 : two_files <> [EmptyString]) by discriminate.
  assert (H3 : Forall (fun p => str_contains ";" p = false) two_files)
    by (repeat constructor).
  split; [exact H1|]. split; [exact H2|]. split; [exact H3|].
  exact (proj2 (results_as_list_roundtrip (job (Some 7%Z)) two_files H1 H2 H3)).
Defined.

(** C8 as stated fails on the list whose only path is empty: it is not
    empty and has no ';', its join is the empty string, and that is read
    back as the empty list. *)
Lemma results_as_list_roundtrip_fails_on_empty_path :
  [EmptyString] <> ([] : list string)
  /\ Forall (fun p => str_contains ";" p = false) [EmptyString]
  /\ results_as_list (with_results (str_join ";" [EmptyString]) (job (Some 7%Z)))
     <> [EmptyString].
Proof.
  split; [discriminate|]. split; [repeat constructor|].
  vm_compute. discriminate.
Qed.

End ResultsAsListRuns.

(** ** Relative dates *)
Section StrToDateFacts.

Import Utils.
Context {Date : Type}.
Variable date_minus_days : Date -> Z -> result Date.
Variable date_plus_days : Date -> Z -> result Date.

Local Abbreviation str_to_date := (Utils.str_to_date date_minus_days date_plus_days).

Lemma str_to_date_D (reference_date : Date) :
  str_to_date "D" reference_date = Return (Some reference_date)
  /\ str_to_date " d " reference_date = Return (Some reference_date).
Proof. split; reflexivity. Qed.

Lemma str_to_date_minus (reference_date : Date) :
  str_to_date "D-1" reference_date
  = rbind (date_minus_days reference_date 1) (fun d => Return (Some d))
  /\ str_to_date "d - 30" reference_date
     = rbind (date_minus_days reference_date 30) (fun d => Return (Some d)).
Proof. split; reflexivity. Qed.

Lemma str_to_date_plus (reference_date : Date) :
  str_to_date "D+007" reference_date
  = rbind (date_plus_days reference_date 7) (fun d => Return (Some d)).
Proof. reflexivity. Qed.

Lemma str_to_date_rejects (value : string) (reference_date : Date) :
  re_match (str_upper (str_remove " " (str_strip " " value))) = false ->
  str_to_date value reference_date = Raise (ValueError ("Wrong value " ++ value)).
Proof. intros H. unfold Utils.str_to_date. rewrite H. reflexivity. Qed.






(** C9, where the code departs from it: the value made of 'D' and a
    newline is none of 'D', 'D-n', 'D+n', yet it passes the pattern, whose
    [$] also matches before a final newline; none of the three branches
    takes it and the function returns [None] instead of raising
    [ValueError].  With digits before the newline a date is returned. *)
Theorem str_to_date_newline_not_rejected (reference_date : Date) :
  str_to_date (String "D" (String newline EmptyString)) reference_date = Return None
  /\ str_to_date ("D-3" ++ String newline EmptyString) reference_date
     = rbind (date_minus_days reference_date 3) (fun d => Return (Some d)).
Proof. split; reflexivity. Qed.

End StrToDateFacts.

(** * Further properties *)

(** ** Splitting and joining *)
Section SplitJoinFacts.

Variable sep : ascii.

Lemma str_join_cons (x : string) (l : list string) :
  l <> [] ->
  str_join (String sep EmptyString) (x :: l) = (x ++ String sep (str_join (String sep EmptyString) l))%string.
Proof. destruct l; [congruence | reflexivity]. Qed.

Lemma str_join_split (s : string) :
  str_join (String sep EmptyString) (str_split sep s) = s.
Proof.
  induction s as [|a s IH]; [reflexivity|].
  simpl. destruct (Ascii.eqb a sep) eqn:Ha.
  - apply Ascii.eqb_eq in Ha as ->.
    rewrite str_join_cons by apply str_split_not_nil.
    rewrite IH. reflexivity.
  - destruct (str_split sep s) as [|w ws] eqn:Hs; [destruct (str_split_not_nil sep s Hs)|].
    rewrite <- IH. destruct ws; reflexivity.
Qed.

Lemma str_split_snoc (front last : string) :
  str_contains sep last = false ->
  str_split sep (front ++ String sep last) = str_split sep front ++ [last].
Proof.
  intros Hlast. induction front as [|a front IH]; simpl.
  - rewrite Ascii.eqb_refl, (str_split_without_sep sep last Hlast). reflexivity.
  - rewrite IH. destruct (Ascii.eqb a sep); [reflexivity|].
    destruct (str_split sep front) as [|w ws] eqn:Hfront;
      [destruct (str_split_not_nil sep front Hfront) | reflexivity].
Qed.

Lemma str_split_no_sep_inside (s : string) :
  Forall (fun w => str_contains sep w = false) (str_split sep s).
Proof.
  induction s as [|a s IH]; simpl; [repeat constructor|].
  destruct (Ascii.eqb a sep) eqn:Ha; [constructor; [reflexivity | exact IH]|].
  destruct (str_split sep s) as [|w ws]; [repeat constructor; simpl; rewrite Ha; reflexivity|].
  inversion IH as [|? ? Hw Hws]; subst.
  constructor; [simpl; rewrite Ha, Hw; reflexivity | exact Hws].
Qed.

End SplitJoinFacts.

(** ** Importing by dotted name *)
Section MyImportFacts.

Import Utils.
Context {Obj : Type}.
Variable import_module : string -> result (string -> option Obj).

Lemma unpack_last_snoc (front : list string) (last : string) :
  unpack_last (front ++ [last]) = Return (front, last).
Proof. unfold unpack_last. rewrite rev_app_distr. simpl. rewrite rev_involutive. reflexivity. Qed.

(** X1: [my_import] cuts the name at its last dot: what is before it,
    dots included, is the module handed to the import system, what is
    after it the attribute looked up there; the exception of a failing
    import goes through and a missing attribute is an [AttributeError]. *)
Theorem my_import_dotted (package name : string) :
  str_contains "." name = false ->
  my_import import_module (package ++ String "." name)
  = match import_module package with
    | Raise e => Raise e
    | Return pymod =>
        match pymod name with
        | Some obj => Return obj
        | None => Raise (AttributeError name)
        end
    end.
Proof.
  intros Hname. unfold my_import.
  rewrite (str_split_snoc "." package name Hname), unpack_last_snoc. simpl.
  rewrite (str_join_split "." package). reflexivity.
Qed.


End MyImportFacts.

(** ** Relative dates, continued *)
Section StrToDateNormalisation.

Import Utils.
Context {Date : Type}.
Variable date_minus_days : Date -> Z -> result Date.
Variable date_plus_days : Date -> Z -> result Date.

Local Abbreviation str_to_date := (Utils.str_to_date date_minus_days date_plus_days).





Lemma rbind_Some_not_None {A : Type} (r : result A) (k : A -> result Date) :
  rbind r (fun a => rbind (k a) (fun d => Return (Some d))) <> Return None.
Proof.
  destruct r as [a|e]; simpl; [|discriminate].
  destruct (k a); simpl; discriminate.
Qed.

Lemma re_match_inv (n : string) :
  re_match n = true ->
  n = "D"
  \/ n = String "D" (String newline EmptyString)
  \/ str_take 2 n = "D-"
  \/ str_take 2 n = "D+".
Proof.
  unfold re_match. intros H. apply orb_true_iff in H as [H|H].
  - destruct n as [|d [|sign [|c rest]]]; try discriminate H.
    unfold match_D_sign_digits in H.
    apply andb_true_iff in H as [H _]. apply andb_true_iff in H as [H _].
    apply andb_true_iff in H as [Hd Hsign]. apply Ascii.eqb_eq in Hd as ->.
    apply orb_true_iff in Hsign as [Hs|Hs]; apply Ascii.eqb_eq in Hs as ->; auto.
  - destruct n as [|d rest]; [discriminate H|].
    unfold match_D in H. apply andb_true_iff in H as [Hd Hrest].
    apply Ascii.eqb_eq in Hd as ->.
    destruct rest as [|a [|b rest]]; [auto | | discriminate Hrest].
    simpl in Hrest. apply Ascii.eqb_eq in Hrest as ->. auto.
Qed.

(** X5: [str_to_date] returns [None] for exactly one normalised value,
    the letter D followed by a newline; every other value yields a date
    or an exception. *)
Theorem str_to_date_None_iff (value : string) (reference_date : Date) :
  str_to_date value reference_date = Return None
  <-> str_upper (str_remove " " (str_strip " " value)) = String "D" (String newline EmptyString).
Proof.
  unfold Utils.str_to_date.
  generalize (str_upper (str_remove " " (str_strip " " value))) as n. intros n. split.
  - destruct (re_match n) eqn:Hmatch; cbn [negb]; [|discriminate].
    destruct (String.eqb n "D") eqn:HD; [discriminate|].
    destruct (String.eqb (str_take 2 n) "D-") eqn:Hminus;
      [intros H; destruct (rbind_Some_not_None _ _ H)|].
    destruct (String.eqb (str_take 2 n) "D+") eqn:Hplus;
      [intros H; destruct (rbind_Some_not_None _ _ H)|].
    intros _. apply String.eqb_neq in HD, Hminus, Hplus.
    destruct (re_match_inv n Hmatch) as [?|[?|[?|?]]]; congruence.
  - intros ->. reflexivity.
Qed.

End StrToDateNormalisation.

(** ** The report run, continued *)
Section BaseReportFrame.

Import Reports Calls.
Context {OutSt Row Content Ds Params : Type}.
Context `{!Output OutSt Row Content} `{!Dataset Ds Row Params}.

Implicit Types (w : @World OutSt Row Content Params) (cs : list (@Call Row Content Params)).
Implicit Types (cls : @ReportClass Row Content Ds Params) (self : @Instance Params).
Implicit Types (o : nat).

(** The state of an output depends on the calls made on it alone. *)
Lemma replay_calls_on cs o (st : OutSt) :
  replay (calls_on o cs) o st = replay cs o st.
Proof.
  unfold replay, calls_on. revert st. induction cs as [|c cs IH]; intros st; [reflexivity|].
  destruct (decide (call_target c = Some o)) as [Hc|Hc].
  - rewrite filter_cons_True by exact Hc. simpl. apply IH.
  - rewrite filter_cons_False by exact Hc. simpl. rewrite IH. f_equal.
    destruct c; simpl in *; try reflexivity;
      (destruct (decide (o0 = o)) as [->|]; [congruence | reflexivity]).
Qed.

Lemma output_protocol_none cls self o :
  output_protocol_n cls self o 0 = [].
Proof.
  unfold output_protocol_n. simpl.
  induction (ds_iterate (dataset cls self) (params self)) as [|row rows IH]; [reflexivity|].
  simpl. exact IH.
Qed.

(** X6: [process] leaves alone every output that is not in the outputs
    list of the report. *)
Theorem process_keeps_other_outputs cls self w o :
  ~ In o (outputs cls self) ->
  outs (snd (process cls self w)) o = outs w o.
Proof.
  intros Hout. destruct (process_eq cls self w) as (_ & _ & _ & Houts).
  rewrite Houts, <- replay_calls_on, calls_on_process.
  rewrite (proj1 (count_occ_not_In Nat.eq_dec _ _) Hout), output_protocol_none.
  reflexivity.
Qed.

(** X7: [process] creates the list it binds to [output_filepaths] and
    writes to no list that exists already: a list taken from
    [output_filepaths] before a run, of this or of any other instance, is
    the same after it. *)
Theorem process_keeps_existing_lists cls self w (l : nat) (v : list string) :
  lists w !! l = Some v ->
  lists (snd (process cls self w)) !! l = Some v
  /\ output_filepaths (fst (process cls self w)) <> Some l.
Proof.
  intros Hl. destruct (process_eq cls self w) as (Hself & _ & Hlists & _).
  assert (Hfresh : fresh (dom (lists w)) <> l).
  { intros E. apply (is_fresh (dom (lists w))). rewrite E.
    apply elem_of_dom. eexists. exact Hl. }
  split.
  - rewrite Hlists, lookup_insert_ne by exact Hfresh. exact Hl.
  - rewrite Hself. simpl. congruence.
Qed.

(** X8: two runs in a row, of the same or of different reports: the
    calls of the second follow those of the first, every output is in the
    state that both runs together lead to, and the list recorded by the
    first run is still what it was. *)
Theorem process_twice cls1 self1 cls2 self2 w :
  let w1 := snd (process cls1 self1 w) in
  let w2 := snd (process cls2 self2 w1) in
  calls w2 = calls w ++ (body_calls cls1 self1 ++ exit_calls cls1 self1)
                     ++ (body_calls cls2 self2 ++ exit_calls cls2 self2)
  /\ (forall o,
        outs w2 o = replay ((body_calls cls1 self1 ++ exit_calls cls1 self1)
                            ++ (body_calls cls2 self2 ++ exit_calls cls2 self2)) o (outs w o))
  /\ read_output_filepaths cls1 (fst (process cls1 self1 w)) w2
     = read_output_filepaths cls1 (fst (process cls1 self1 w)) w1.
Proof.
  intros w1 w2.
  destruct (process_eq cls1 self1 w) as (Hself1 & Hcalls1 & Hlists1 & Houts1).
  destruct (process_eq cls2 self2 w1) as (_ & Hcalls2 & Hlists2 & Houts2).
  fold w1 in Hcalls1, Hlists1, Houts1. fold w2 in Hcalls2, Hlists2, Houts2.
  split; [|split].
  - rewrite Hcalls2, Hcalls1, <- app_assoc. reflexivity.
  - intros o. rewrite Houts2, Houts1, <- replay_app. reflexivity.
  - unfold read_output_filepaths, getattr_output_filepaths. rewrite Hself1.
    cbn [output_filepaths]. rewrite Hlists2. apply lookup_insert_ne.
    intros E. apply (is_fresh (dom (lists w1))). rewrite E, Hlists1.
    apply elem_of_dom. rewrite lookup_insert_eq. eexists. reflexivity.
Qed.

Lemma count_app (p : @Call Row Content Params -> bool) cs1 cs2 :
  count p (cs1 ++ cs2) = (count p cs1 + count p cs2)%nat.
Proof. unfold count. rewrite List.filter_app. apply List.length_app. Qed.

Lemma count_map_none (p : @Call Row Content Params -> bool) (c : nat -> Call) (l : list nat) :
  (forall o, p (c o) = false) -> count p (map c l) = 0%nat.
Proof.
  intros Hp. unfold count. induction l as [|o l IH]; [reflexivity|].
  simpl. rewrite Hp. exact IH.
Qed.

Lemma count_map_all (p : @Call Row Content Params -> bool) (c : nat -> Call) (l : list nat) :
  (forall o, p (c o) = true) -> count p (map c l) = List.length l.
Proof.
  intros Hp. unfold count. induction l as [|o l IH]; [reflexivity|].
  simpl. rewrite Hp. simpl. rewrite IH. reflexivity.
Qed.

Lemma count_rows (p : @Call Row Content Params -> bool) (clean : Row -> Row) (l : list nat)
      (rows : list Row) (k : nat) :
  (forall row, count p (DsNext row :: map (fun o => OutOut o (clean row)) l) = k) ->
  count p (flat_map (fun row => DsNext row :: map (fun o => OutOut o (clean row)) l) rows)
  = (List.length rows * k)%nat.
Proof.
  intros Hrow. induction rows as [|row rows IH]; [reflexivity|].
  simpl flat_map. rewrite app_comm_cons, count_app, IH, Hrow. simpl. reflexivity.
Qed.

Lemma count_cons (p : @Call Row Content Params -> bool) (c : Call) cs :
  count p (c :: cs) = ((if p c then 1 else 0) + count p cs)%nat.
Proof. unfold count. simpl. destruct (p c); reflexivity. Qed.

(** X9: a run asks the dataset for its iterator once, takes every row
    from it once, and makes one [out] call per row and output: none at
    all when the dataset is empty or the report has no output. *)
Theorem process_call_counts cls self w :
  exists cs,
    calls (snd (process cls self w)) = calls w ++ cs
    /\ count is_iterate cs = 1%nat
    /\ count is_next cs = List.length (ds_iterate (dataset cls self) (params self))
    /\ count is_out cs
       = (List.length (ds_iterate (dataset cls self) (params self))
          * List.length (outputs cls self))%nat.
Proof.
  destruct (process_eq cls self w) as (_ & Hcalls & _ & _).
  exists (body_calls cls self ++ exit_calls cls self). split; [exact Hcalls|].
  unfold body_calls, exit_calls.
  split; [|split]; rewrite !count_app.
  - rewrite (count_rows _ _ _ _ 0%nat)
      by (intros row; rewrite count_cons, (count_map_none is_iterate) by reflexivity;
          reflexivity).
    rewrite !count_map_none by reflexivity. unfold count. simpl. lia.
  - rewrite (count_rows _ _ _ _ 1%nat)
      by (intros row; rewrite count_cons, (count_map_none is_next) by reflexivity;
          reflexivity).
    rewrite !count_map_none by reflexivity. unfold count. simpl. lia.
  - rewrite (count_rows _ _ _ _ (List.length (outputs cls self)))
      by (intros row; rewrite count_cons, (count_map_all is_out) by reflexivity;
          reflexivity).
    rewrite !count_map_none by reflexivity. unfold count. simpl. lia.
Qed.

End BaseReportFrame.

(** ** SQL reports *)
Section SQLReportFacts.

Import Reports SQL.
Context {OutSt Row Content Ds Params Query QueryParams DbAlias : Type}.
Context `{!Output OutSt Row Content} `{!Dataset Ds Row Params}.
Variable SQLDataset : Query -> QueryParams -> DbAlias -> Ds.
Variable TSVOutput : nat.
Variable class_list : nat.

Local Abbreviation SQLReport := (SQL.SQLReport SQLDataset TSVOutput class_list).

Implicit Types (w : @World OutSt Row Content Params) (self : @Instance Params).

Lemma replay_single_output_rows (rows : list Row) (st : OutSt) :
  replay (flat_map (fun row => DsNext (Content:=Content) (Params:=Params) row
                               :: map (fun o => OutOut o (BaseReport_row_cleaner row))
                                    [TSVOutput]) rows) TSVOutput st
  = fold_left (fun st row => out_out row st) rows st.
Proof.
  unfold replay. revert st. induction rows as [|row rows IH]; intros st; [reflexivity|].
  simpl. destruct (decide (TSVOutput = TSVOutput)) as [_|Hne]; [|congruence].
  apply IH.
Qed.

Lemma replay_sql_body query query_params db_alias self (st : OutSt) :
  replay (body_calls (SQLReport query query_params db_alias) self) TSVOutput st
  = written (ds_iterate (SQLDataset query query_params db_alias) (params self)) st.
Proof.
  unfold body_calls, written. cbn [outputs header footer dataset row_cleaner SQL.SQLReport].
  rewrite !replay_app, replay_single_output_rows.
  unfold replay. simpl.
  destruct (decide (TSVOutput = TSVOutput)) as [_|Hne]; [reflexivity|congruence].
Qed.

Lemma replay_sql_exit query query_params db_alias self (st : OutSt) :
  replay (exit_calls (SQLReport query query_params db_alias) self) TSVOutput st = out_exit st.
Proof.
  unfold exit_calls, replay. simpl.
  destruct (decide (TSVOutput = TSVOutput)) as [_|Hne]; [reflexivity|congruence].
Qed.

(** X10: a run of an SQL report calls [header] and [footer] of its one
    output with [None], hands it the rows of the query as they are, and
    records one path, that of this output.  The output belongs to the class [SQLReport]: a second SQL
    report, whatever its query, works on the same object, in the state in
    which the first run left it. *)
Theorem sql_reports_share_output query1 params1 alias1 query2 params2 alias2 self1 self2 w :
  let cls1 := SQLReport query1 params1 alias1 in
  let cls2 := SQLReport query2 params2 alias2 in
  let rows1 := ds_iterate (SQLDataset query1 params1 alias1) (params self1) in
  let rows2 := ds_iterate (SQLDataset query2 params2 alias2) (params self2) in
  let w1 := snd (process cls1 self1 w) in
  let w2 := snd (process cls2 self2 w1) in
  read_output_filepaths cls1 (fst (process cls1 self1 w)) w1
  = Some [out_filepath (written rows1 (outs w TSVOutput))]
  /\ outs w1 TSVOutput = out_exit (written rows1 (outs w TSVOutput))
  /\ read_output_filepaths cls2 (fst (process cls2 self2 w1)) w2
     = Some [out_filepath (written rows2 (out_exit (written rows1 (outs w TSVOutput))))]
  /\ outs w2 TSVOutput
     = out_exit (written rows2 (out_exit (written rows1 (outs w TSVOutput)))).
Proof.
  intros cls1 cls2 rows1 rows2 w1 w2.
  assert (Hout1 : outs w1 TSVOutput = out_exit (written rows1 (outs w TSVOutput))).
  { destruct (process_eq cls1 self1 w) as (_ & _ & _ & Houts).
    unfold w1. rewrite Houts, replay_app. unfold cls1.
    rewrite replay_sql_body, replay_sql_exit. reflexivity. }
  assert (Hout2 : outs w2 TSVOutput = out_exit (written rows2 (outs w1 TSVOutput))).
  { destruct (process_eq cls2 self2 w1) as (_ & _ & _ & Houts).
    unfold w2. rewrite Houts, replay_app. unfold cls2.
    rewrite replay_sql_body, replay_sql_exit. reflexivity. }
  assert (Hread : forall query query_params db_alias self w0,
             read_output_filepaths (SQLReport query query_params db_alias)
               (fst (process (SQLReport query query_params db_alias) self w0))
               (snd (process (SQLReport query query_params db_alias) self w0))
             = Some [out_filepath
                       (written (ds_iterate (SQLDataset query query_params db_alias)
                                   (params self)) (outs w0 TSVOutput))]).
  { intros query query_params db_alias self w0.
    destruct (process_eq (SQLReport query query_params db_alias) self w0)
      as (Hself & _ & Hlists & _).
    unfold read_output_filepaths, getattr_output_filepaths.
    rewrite Hself, Hlists. cbn [output_filepaths]. rewrite lookup_insert_eq.
    cbn [outputs SQL.SQLReport map]. rewrite replay_sql_body. reflexivity. }
  split; [apply Hread|]. split; [exact Hout1|].
  split; [|rewrite Hout2, Hout1; reflexivity].
  unfold w2, cls2. rewrite Hread. fold w1. rewrite Hout1. reflexivity.
Qed.

End SQLReportFacts.

(** ** The job record, continued *)
Section ReportFrame.

Import Models Pipeline.
Context {Decimal Params : Type}.
Variable dec_sub : Decimal -> Decimal -> Decimal.

Implicit Types (env : @Env Decimal Params) (s : @State Decimal Params).
Implicit Types (params : option Params) (this : @Report Decimal).

(** Every way [process] can go, with the report run and the handling of
    its paths each taken as a whole. *)
Lemma process_outcomes env params s :
  (opt_int_truthy (id (self s)) = false
   /\ process dec_sub env params s = (Raise ReportNotSavedException, s))
  \/ (exists pk,
        id (self s) = Some pk /\ pk <> 0%Z /\ db s !! pk = None
        /\ process dec_sub env params s
           = (Raise DatabaseError,
              {| self := with_status STATUS_PROCESSING (self s); db := db s;
                 ticks := ticks s; trace := trace s ++ [SetStatus STATUS_PROCESSING] |}))
  \/ (exists pk row e evs t,
        id (self s) = Some pk /\ pk <> 0%Z /\ db s !! pk = Some row
        /\ report_run env (report (self s)) params = Raise e
        /\ process dec_sub env params s
           = (Raise e, final_state s pk row STATUS_PROCESSING (self s) t evs))
  \/ (exists pk row e evs t,
        id (self s) = Some pk /\ pk <> 0%Z /\ db s !! pk = Some row
        /\ report_run env (report (self s)) params = Raise e
        /\ is_Exception e = true
        /\ process dec_sub env params s
           = (Return tt, final_state s pk row STATUS_ERROR (self s) t evs))
  \/ (exists pk row fps e evs,
        id (self s) = Some pk /\ pk <> 0%Z /\ db s !! pk = Some row
        /\ report_run env (report (self s)) params = Return fps
        /\ handle_all env fps = Raise e
        /\ is_Exception e = false
        /\ process dec_sub env params s
           = (Raise e,
              final_state s pk row STATUS_PROCESSING
                (with_process_time (dec_sub (timer env (S (ticks s))) (timer env (ticks s)))
                   (self s))
                (S (S (ticks s))) evs))
  \/ (exists pk row fps e evs,
        id (self s) = Some pk /\ pk <> 0%Z /\ db s !! pk = Some row
        /\ report_run env (report (self s)) params = Return fps
        /\ handle_all env fps = Raise e
        /\ is_Exception e = true
        /\ process dec_sub env params s
           = (Return tt,
              final_state s pk row STATUS_ERROR
                (with_process_time (dec_sub (timer env (S (ticks s))) (timer env (ticks s)))
                   (self s))
                (S (S (ticks s))) evs))
  \/ (exists pk row fps rs evs,
        id (self s) = Some pk /\ pk <> 0%Z /\ db s !! pk = Some row
        /\ report_run env (report (self s)) params = Return fps
        /\ handle_all env fps = Return rs
        /\ process dec_sub env params s
           = (Return tt,
              final_state s pk row STATUS_PROCESSED
                (with_results (str_join ";" rs)
                   (with_process_time (dec_sub (timer env (S (ticks s))) (timer env (ticks s)))
                      (self s)))
                (S (S (ticks s))) evs)).
Proof.
  destruct (opt_int_truthy (id (self s))) eqn:Hid;
    [right | left; split; [reflexivity | apply process_unsaved, Hid]].
  destruct (truthy_id _ Hid) as (pk & Hpk & Hnz).
  destruct (db s !! pk) as [row|] eqn:Hrow;
    [right | left; exists pk; repeat (split; [assumption|]);
             apply (process_no_row _ _ _ _ _ Hpk Hnz Hrow)].
  rewrite (process_saved dec_sub env params s pk row Hpk Hnz Hrow).
  unfold report_run, caught. cbv zeta.
  destruct (Utils.my_import _ _) as [cls|e]; simpl;
    [|left; eexists pk, row, _, _, _; repeat (split; [eassumption || reflexivity|]);
      reflexivity].
  destruct (call_params cls params) as [rep|e]; simpl;
    [|left; eexists pk, row, _, _, _; repeat (split; [eassumption || reflexivity|]);
      reflexivity].
  destruct (report_process rep) as [fps|e]; simpl.
  - do 2 right. destruct (handle_all env fps) as [rs|e] eqn:Hall.
    + do 2 right. eexists pk, row, fps, rs, _.
      repeat (split; [eassumption || reflexivity|]). reflexivity.
    + destruct (is_Exception e) eqn:He; [right; left | left];
        eexists pk, row, fps, e, _; repeat (split; [eassumption || reflexivity|]);
        reflexivity.
  - destruct (is_Exception e) eqn:He; [right; left | left];
      eexists pk, row, e, _, _; repeat (split; [eassumption || reflexivity|]);
      reflexivity.
Qed.

Ltac outcomes env params s :=
  let H := fresh "Hrun" in
  destruct (process_outcomes env params s)
    as [(? & H)
       |[(? & ? & ? & ? & H)
        |[(? & ? & ? & ? & ? & ? & ? & ? & ? & H)
         |[(? & ? & ? & ? & ? & ? & ? & ? & ? & ? & H)
          |[(? & ? & ? & ? & ? & ? & ? & ? & ? & ? & ? & H)
           |[(? & ? & ? & ? & ? & ? & ? & ? & ? & ? & ? & H)
            |(? & ? & ? & ? & ? & ? & ? & ? & ? & ? & H)]]]]]];
  rewrite H in *; clear H; unfold final_state in *; simpl in *.

(** X11: of the table, [process] changes nothing but the status column
    of the row of the record: every other row, and every other column of
    that row, is as before, and no row appears or disappears. *)
Theorem process_touches_one_status env params s (pk : Z) :
  db (snd (process dec_sub env params s)) !! pk = db s !! pk
  \/ (id (self s) = Some pk
      /\ exists row st,
           db s !! pk = Some row
           /\ db (snd (process dec_sub env params s)) !! pk = Some (row_with_status st row)).
Proof.
  outcomes env params s; try (left; reflexivity);
    (destruct (decide (x = pk)) as [->|Hne];
     [ right; split; [assumption|]; eexists _, _; split; [eassumption|];
       apply lookup_insert_eq
     | left; apply lookup_insert_ne; exact Hne ]).
Qed.

(** X12: [process] never changes the [id] of the record nor the name of
    its report class. *)
Theorem process_keeps_identity env params s :
  id (self (snd (process dec_sub env params s))) = id (self s)
  /\ report (self (snd (process dec_sub env params s))) = report (self s).
Proof. outcomes env params s; split; reflexivity. Qed.



(** X15: [process_time] is assigned exactly when the report run itself
    has completed, whether or not the handling of its paths then fails; it
    is the difference of the two timer readings around the run.  In every
    other case it keeps the value it had. *)
Theorem process_time_set_by_completed_run env params s (pk : Z) (row : Row) :
  id (self s) = Some pk -> pk <> 0%Z -> db s !! pk = Some row ->
  process_time (self (snd (process dec_sub env params s)))
  = match report_run env (report (self s)) params with
    | Return _ => Some (dec_sub (timer env (S (ticks s))) (timer env (ticks s)))
    | Raise _ => process_time (self s)
    end.
Proof.
  intros Hpk Hnz Hrow. apply Z.eqb_neq in Hnz.
  outcomes env params s; simplify_eq;
    try (rewrite Hpk in *; simpl in *; rewrite Hnz in *; discriminate);
    match goal with H : report_run _ _ _ = _ |- _ => rewrite H end; reflexivity.
Qed.

Lemma results_as_list_of_join this (rs : list string) :
  Forall (fun p => str_contains ";" p = false) rs ->
  rs <> [EmptyString] ->
  results_as_list (with_results (str_join ";" rs) this) = rs.
Proof.
  intros Hsemi Hne. destruct rs as [|r rs']; [reflexivity|].
  rewrite (results_as_list_split _ (str_join ";" (r :: rs'))).
  - apply str_split_join; [discriminate | exact Hsemi].
  - reflexivity.
  - intros Hempty. apply str_join_empty_inv in Hempty as [?|?]; congruence.
Qed.

(** X16: after a run that ends 'processed', [results_as_list] gives the
    handled output paths back, in order, provided none of them contains
    ';' and they are not just one empty path; for a report without
    outputs it gives the empty list. *)
Theorem process_then_results_as_list env params s s' :
  opt_int_truthy (id (self s)) = true ->
  process dec_sub env params s = (Return tt, s') ->
  status (self s') = STATUS_PROCESSED ->
  exists fps rs,
    report_run env (report (self s)) params = Return fps
    /\ Forall2 (fun fp r => output_file_handler env fp = Return r) fps rs
    /\ (Forall (fun p => str_contains ";" p = false) rs ->
        rs <> [EmptyString] ->
        results_as_list (self s') = rs).
Proof.
  intros Hid Hrun Hst. revert Hrun.
  outcomes env params s; intros Hrun; simplify_eq; try discriminate Hst.
  eexists _, _. split; [eassumption|]. split; [apply handle_all_Forall2; eassumption|].
  intros Hsemi Hne.
  match goal with
  | |- results_as_list ?r = ?rs =>
      change r with (with_results (str_join ";" rs) r)
  end.
  apply results_as_list_of_join; assumption.
Qed.

Lemma handle_all_without_handler env fps :
  opt_str_truthy (ONMYDESK_FILE_HANDLER env) = false ->
  handle_all env fps = Return fps.
Proof.
  intros Hcfg. induction fps as [|fp fps IH]; [reflexivity|].
  simpl. replace (output_file_handler env fp) with (Return (A:=string) fp).
  - simpl. rewrite IH. reflexivity.
  - unfold output_file_handler. destruct (ONMYDESK_FILE_HANDLER env) as [name|];
      [|reflexivity].
    simpl in Hcfg. rewrite Hcfg. reflexivity.
Qed.

(** X17: with no file handler configured, a run that ends 'processed'
    stores in [results] the output paths of the report, joined with ';',
    as they are. *)
Theorem process_without_handler_stores_paths env params s s' :
  opt_int_truthy (id (self s)) = true ->
  opt_str_truthy (ONMYDESK_FILE_HANDLER env) = false ->
  process dec_sub env params s = (Return tt, s') ->
  status (self s') = STATUS_PROCESSED ->
  exists fps,
    report_run env (report (self s)) params = Return fps
    /\ results (self s') = Some (str_join ";" fps).
Proof.
  intros Hid Hcfg Hrun Hst. revert Hrun.
  outcomes env params s; intros Hrun; simplify_eq; try discriminate Hst.
  eexists. split; [eassumption|].
  match goal with H : handle_all _ _ = Return _ |- _ =>
    rewrite (handle_all_without_handler _ _ Hcfg) in H; injection H as <- end.
  reflexivity.
Qed.

(** X18: a report whose run leaves no output path ends 'processed' with
    the empty string in [results], which reads back as the empty list;
    the handler setting is not even looked up, so this holds also when the
    configured handler cannot be imported. *)
Theorem process_without_outputs env params s (pk : Z) (row : Row) :
  id (self s) = Some pk -> pk <> 0%Z -> db s !! pk = Some row ->
  report_run env (report (self s)) params = Return [] ->
  fst (process dec_sub env params s) = Return tt
  /\ status (self (snd (process dec_sub env params s))) = STATUS_PROCESSED
  /\ results (self (snd (process dec_sub env params s))) = Some EmptyString
  /\ results_as_list (self (snd (process dec_sub env params s))) = [].
Proof.
  intros Hpk Hnz Hrow Hrep. apply Z.eqb_neq in Hnz.
  outcomes env params s; simplify_eq;
    try (rewrite Hpk in *; simpl in *; rewrite Hnz in *; discriminate);
    repeat match goal with
           | H : report_run _ _ _ = _ |- _ => rewrite Hrep in H; simplify_eq
           | H : handle_all _ [] = _ |- _ => simpl in H; simplify_eq
           end.
  repeat split.
Qed.

(** X19: when the report has run but the handling of one of its paths
    raises an [Exception], the run ends 'error': [results] keeps its
    value and names none of the files produced, while [process_time] is
    that of the run. *)
Theorem process_handler_failure env params s (pk : Z) (row : Row) fps e :
  id (self s) = Some pk -> pk <> 0%Z -> db s !! pk = Some row ->
  report_run env (report (self s)) params = Return fps ->
  handle_all env fps = Raise e ->
  is_Exception e = true ->
  fst (process dec_sub env params s) = Return tt
  /\ status (self (snd (process dec_sub env params s))) = STATUS_ERROR
  /\ results (self (snd (process dec_sub env params s))) = results (self s)
  /\ process_time (self (snd (process dec_sub env params s)))
     = Some (dec_sub (timer env (S (ticks s))) (timer env (ticks s))).
Proof.
  intros Hpk Hnz Hrow Hrep Hall He. apply Z.eqb_neq in Hnz.
  outcomes env params s; simplify_eq;
    try (rewrite Hpk in *; simpl in *; rewrite Hnz in *; discriminate);
    repeat match goal with
           | H : report_run _ _ _ = _ |- _ => rewrite Hrep in H; simplify_eq
           | H : handle_all _ _ = _ |- _ => rewrite Hall in H; simplify_eq
           end;
    try congruence.
  repeat split.
Qed.

End ReportFrame.

(** ** Reading the results back, continued *)
Section ResultsAsListInverse.

Import Models.
Context {Decimal : Type}.

(** X20: joining what [results_as_list] returns with ';' gives the
    stored [results] back (the empty string when there is none), and no
    element of the list contains a ';'. *)
Theorem results_as_list_join (this : @Report Decimal) :
  str_join ";" (results_as_list this) = default EmptyString (results this)
  /\ Forall (fun p => str_contains ";" p = false) (results_as_list this).
Proof.
  unfold results_as_list. destruct (results this) as [[|c r]|]; simpl default.
  - split; [reflexivity | constructor].
  - cbn [str_truthy negb]. split; [apply (str_join_split ";") | apply str_split_no_sep_inside].
  - split; [reflexivity | constructor].
Qed.

End ResultsAsListInverse.

(** ** From the job record to the output files *)
Section PipelineFacts.

Import Reports Models Pipeline.
Context {OutSt Row Content Ds Params Decimal : Type}.
Context `{!Output OutSt Row Content} `{!Dataset Ds Row Params}.
Variable dec_sub : Decimal -> Decimal -> Decimal.

Implicit Types (env : @Env Decimal Params) (s : @State Decimal Params).
Implicit Types (w : @World OutSt Row Content Params).
Implicit Types (cls : @ReportClass Row Content Ds Params).



End PipelineFacts.

(** ** Runs of the installations *)
Section InstallationRuns.

Import Models Scenario Installations Pipeline.

Lemma my_import_dotted_witness :
  str_contains "." "SalesReport" = false
  /\ Utils.my_import (modules (Return two_files)) "shop.reports.SalesReport"
     = Return (SalesReport (Return two_files)).
Proof.
  assert (Hname : str_contains "." "SalesReport" = false) by reflexivity.
  split; [exact Hname|].
  exact (my_import_dotted (modules (Return two_files)) "shop.reports" "SalesReport" Hname).
Defined.






Lemma process_time_set_by_completed_run_witness :
  id (self (start (Some 7%Z))) = Some 7%Z
  /\ 7%Z <> 0%Z
  /\ db (start (Some 7%Z)) !! 7%Z = Some job_row
  /\ process_time (self (snd (process Z.sub bad_handler None (start (Some 7%Z)))))
     = match report_run bad_handler (report (self (start (Some 7%Z)))) None with
       | Return _ => Some (timer bad_handler 1 - timer bad_handler 0)%Z
       | Raise _ => process_time (self (start (Some 7%Z)))
       end.
Proof.
  assert (Hpk : id (self (start (Some 7%Z))) = Some 7%Z) by reflexivity.
  assert (Hnz : 7%Z <> 0%Z) by discriminate.
  assert (Hrow : db (start (Some 7%Z)) !! 7%Z = Some job_row) by (vm_compute; reflexivity).
  split; [exact Hpk|]. split; [exact Hnz|]. split; [exact Hrow|].
  exact (process_time_set_by_completed_run Z.sub bad_handler None (start (Some 7%Z)) 7%Z
           job_row Hpk Hnz Hrow).
Defined.

Lemma process_then_results_as_list_witness :
  opt_int_truthy (id (self (start (Some 7%Z)))) = true
  /\ run handled (Some 7%Z) = (Return tt, snd (run handled (Some 7%Z)))
  /\ status (self (snd (run handled (Some 7%Z)))) = STATUS_PROCESSED
  /\ exists fps rs,
       report_run handled (report (self (start (Some 7%Z)))) None = Return fps
       /\ Forall2 (fun fp r => output_file_handler handled fp = Return r) fps rs
       /\ (Forall (fun p => str_contains ";" p = false) rs ->
           rs <> [EmptyString] ->
           results_as_list (self (snd (run handled (Some 7%Z)))) = rs).
Proof.
  assert (Hid : opt_int_truthy (id (self (start (Some 7%Z)))) = true) by reflexivity.
  assert (Hrun : run handled (Some 7%Z) = (Return tt, snd (run handled (Some 7%Z))))
    by (vm_compute; reflexivity).
  assert (Hst : status (self (snd (run handled (Some 7%Z)))) = STATUS_PROCESSED)
    by (vm_compute; reflexivity).
  split; [exact Hid|]. split; [exact Hrun|]. split; [exact Hst|].
  exact (process_then_results_as_list Z.sub handled None _ _ Hid Hrun Hst).
Defined.

Lemma process_without_handler_stores_paths_witness :
  opt_int_truthy (id (self (start (Some 7%Z)))) = true
  /\ opt_str_truthy (ONMYDESK_FILE_HANDLER plain) = false
  /\ run plain (Some 7%Z) = (Return tt, snd (run plain (Some 7%Z)))
  /\ status (self (snd (run plain (Some 7%Z)))) = STATUS_PROCESSED
  /\ exists fps,
       report_run plain (report (self (start (Some 7%Z)))) None = Return fps
       /\ results (self (snd (run plain (Some 7%Z)))) = Some (str_join ";" fps).
Proof.
  assert (Hid : opt_int_truthy (id (self (start (Some 7%Z)))) = true) by reflexivity.
  assert (Hcfg : opt_str_truthy (ONMYDESK_FILE_HANDLER plain) = false) by reflexivity.
  assert (Hrun : run plain (Some 7%Z) = (Return tt, snd (run plain (Some 7%Z))))
    by (vm_compute; reflexivity).
  assert (Hst : status (self (snd (run plain (Some 7%Z)))) = STATUS_PROCESSED)
    by (vm_compute; reflexivity).
  split; [exact Hid|]. split; [exact Hcfg|]. split; [exact Hrun|]. split; [exact Hst|].
  exact (process_without_handler_stores_paths Z.sub plain None _ _ Hid Hcfg Hrun Hst).
Defined.

Lemma process_without_outputs_witness :
  id (self (start (Some 7%Z))) = Some 7%Z
  /\ 7%Z <> 0%Z
  /\ db (start (Some 7%Z)) !! 7%Z = Some job_row
  /\ report_run no_outputs (report (self (start (Some 7%Z)))) None = Return []
  /\ fst (process Z.sub no_outputs None (start (Some 7%Z))) = Return tt
  /\ status (self (snd (process Z.sub no_outputs None (start (Some 7%Z)))))
     = STATUS_PROCESSED
  /\ results (self (snd (process Z.sub no_outputs None (start (Some 7%Z)))))
     = Some EmptyString
  /\ results_as_list (self (snd (process Z.sub no_outputs None (start (Some 7%Z))))) = [].
Proof.
  assert (Hpk : id (self (start (Some 7%Z))) = Some 7%Z) by reflexivity.
  assert (Hnz : 7%Z <> 0%Z) by discriminate.
  assert (Hrow : db (start (Some 7%Z)) !! 7%Z = Some job_row) by (vm_compute; reflexivity).
  assert (Hrep : report_run no_outputs (report (self (start (Some 7%Z)))) None = Return [])
    by (vm_compute; reflexivity).
  split; [exact Hpk|]. split; [exact Hnz|]. split; [exact Hrow|]. split; [exact Hrep|].
  exact (process_without_outputs Z.sub no_outputs None (start (Some 7%Z)) 7%Z job_row
           Hpk Hnz Hrow Hrep).
Defined.

Lemma process_handler_failure_witness :
  id (self (start (Some 7%Z))) = Some 7%Z
  /\ 7%Z <> 0%Z
  /\ db (start (Some 7%Z)) !! 7%Z = Some job_row
  /\ report_run bad_handler (report (self (start (Some 7%Z)))) None = Return two_files
  /\ handle_all bad_handler two_files = Raise (AttributeError "missing")
  /\ is_Exception (AttributeError "missing") = true
  /\ fst (process Z.sub bad_handler None (start (Some 7%Z))) = Return tt
  /\ status (self (snd (process Z.sub bad_handler None (start (Some 7%Z))))) = STATUS_ERROR
  /\ results (self (snd (process Z.sub bad_handler None (start (Some 7%Z)))))
     = results (self (start (Some 7%Z)))
  /\ process_time (self (snd (process Z.sub bad_handler None (start (Some 7%Z)))))
     = Some (timer bad_handler 1 - timer bad_handler 0)%Z.
Proof.
  assert (Hpk : id (self (start (Some 7%Z))) = Some 7%Z) by reflexivity.
  assert (Hnz : 7%Z <> 0%Z) by discriminate.
  assert (Hrow : db (start (Some 7%Z)) !! 7%Z = Some job_row) by (vm_compute; reflexivity).
  assert (Hrep : report_run bad_handler (report (self (start (Some 7%Z)))) None
                 = Return two_files) by (vm_compute; reflexivity).
  assert (Hall : handle_all bad_handler two_files = Raise (AttributeError "missing"))
    by (vm_compute; reflexivity).
  assert (He : is_Exception (AttributeError "missing") = true) by reflexivity.
  split; [exact Hpk|]. split; [exact Hnz|]. split; [exact Hrow|]. split; [exact Hrep|].
  split; [exact Hall|]. split; [exact He|].
  exact (process_handler_failure Z.sub bad_handler None (start (Some 7%Z)) 7%Z job_row
           two_files (AttributeError "missing") Hpk Hnz Hrow Hrep Hall He).
Defined.


End InstallationRuns.

Section SalesReportFrame.

Import Reports Scenario.

Lemma process_keeps_other_outputs_witness :
  ~ In 5%nat (outputs sales_report (fst (init None heap)))
  /\ outs (snd (process sales_report (fst (init None heap)) (snd (init None heap)))) 5%nat
     = outs (snd (init None heap)) 5%nat.
Proof.
  assert (Hout : ~ In 5%nat (outputs sales_report (fst (init None heap)))).
  { simpl. intros [H|[H|[]]]; discriminate H. }
  split; [exact Hout|].
  exact (process_keeps_other_outputs sales_report (fst (init None heap))
           (snd (init None heap)) 5%nat Hout).
Defined.

Lemma process_keeps_existing_lists_witness :
  lists (snd (init None heap)) !! 0%nat = Some []
  /\ lists (snd (process sales_report (fst (init None heap)) (snd (init None heap)))) !! 0%nat
     = Some []
  /\ output_filepaths (fst (process sales_report (fst (init None heap)) (snd (init None heap))))
     <> Some 0%nat.
Proof.
  assert (Hl : lists (snd (init None heap)) !! 0%nat = Some []) by (vm_compute; reflexivity).
  split; [exact Hl|].
  exact (process_keeps_existing_lists sales_report (fst (init None heap))
           (snd (init None heap)) 0%nat [] Hl).
Defined.

End SalesReportFrame.
